(** * Kiwi flight search and booking script (search_and_book.py)

    A shallow embedding of the script.  Python values are a tagged union,
    dictionaries with string keys are finite maps, exceptions are an error
    result, and everything the script does to the outside world (console
    lines, the GET to the search service, the POST to the booking service)
    is recorded as a trace of events next to the result. *)

From Stdlib Require Import Ascii.
From stdpp Require Import gmap strings pretty list.

Set Warnings "-register-all".
Open Scope Z_scope.

(** ** Python values *)

(** A [datetime.datetime].  [strptime] is modelled for the directives
    %Y, %m and %d only, so the time of day is always midnight and is not
    stored. *)
Record datetime := Datetime { year : Z; month : Z; day : Z }.

(** The values the script handles: what docopt and [json.loads] produce,
    plus the datetime that lives inside [prepare_payload].  A float is
    identified by its [repr]; the script stores and prints floats and never
    computes with them.  Dictionaries are keyed by strings, as both docopt's
    result and decoded JSON objects are. *)
Inductive value : Type :=
  | VNone
  | VBool (b : bool)
  | VInt (n : Z)
  | VFloat (r : string)
  | VStr (s : string)
  | VList (l : list value)
  | VDict (d : gmap string value)
  | VDatetime (dt : datetime).

(** Exceptions.  [ReError] is [re.error], [ExternalError] one raised by the
    network or the JSON decoder.  [OutsideModel] marks a call of a library
    function on arguments this development does not model (a format
    directive other than %Y, %m, %d, %%, or text outside ASCII given to
    [strptime]): no statement below relies on it. *)
Inductive exn : Type :=
  | TypeError
  | KeyError (key : value)
  | IndexError
  | ValueError
  | ReError
  | ExternalError (name : string)
  | OutsideModel.

Inductive result (A : Type) : Type :=
  | Ok (a : A)
  | Raise (e : exn).
Arguments Ok {A} a.
Arguments Raise {A} e.

(** [LookupError] is the base class of [KeyError] and [IndexError]. *)
Definition is_lookup_error (e : exn) : bool :=
  match e with
  | KeyError _ | IndexError => true
  | _ => false
  end.

(** ** Effects *)

Inductive event : Type :=
  | EPrint (line : string)
  | EGet (url : string) (params : value)
  | EPost (url : string) (json : value).

Definition is_post (e : event) : bool :=
  match e with EPost _ _ => true | _ => false end.

(** A computation: its result, or the exception that ended it, and the
    events it performed up to there. *)
Definition Py (A : Type) : Type := result A * list event.

Definition py_ret {A} (a : A) : Py A := (Ok a, []).

Definition py_bind {A B} (m : Py A) (f : A → Py B) : Py B :=
  match m with
  | (Ok a, t) => let '(r, t') := f a in (r, t ++ t')
  | (Raise e, t) => (Raise e, t)
  end.

Notation "x <~ m ;; k" := (py_bind m (fun x => k))
  (at level 100, m at next level, right associativity,
   format "'[v' x  <~  m  ;;  '/' k ']'").
Notation "m ;;; k" := (py_bind m (fun _ => k))
  (at level 100, right associativity).

Definition lift {A} (r : result A) : Py A := (r, []).

Definition res_bind {A B} (m : result A) (f : A → result B) : result B :=
  match m with
  | Ok a => f a
  | Raise e => Raise e
  end.

(** ** Subscripting: [obj['key']] and [obj[i]] *)

Definition py_index {A} (l : list A) (i : Z) : option A :=
  let j := if bool_decide (i < 0) then i + Z.of_nat (length l) else i in
  if bool_decide (j < 0) then None else l !! Z.to_nat j.

Definition getitem_key (obj : value) (key : string) : result value :=
  match obj with
  | VDict d =>
      match d !! key with
      | Some v => Ok v
      | None => Raise (KeyError (VStr key))
      end
  | _ => Raise TypeError
  end.

Definition getitem_index (obj : value) (i : Z) : result value :=
  match obj with
  | VList l =>
      match py_index l i with
      | Some v => Ok v
      | None => Raise IndexError
      end
  | VStr s =>
      match py_index (String.list_ascii_of_string s) i with
      | Some c => Ok (VStr (String c EmptyString))
      | None => Raise IndexError
      end
  | VDict _ => Raise (KeyError (VInt i))
  | _ => Raise TypeError
  end.

(** [v == 'literal'], [v is None], [v is True]. *)
Definition eq_str (v : value) (s : string) : bool :=
  match v with
  | VStr s' => bool_decide (s' = s)
  | _ => false
  end.

Definition is_none (v : value) : bool :=
  match v with VNone => true | _ => false end.

Definition is_true (v : value) : bool :=
  match v with VBool true => true | _ => false end.

(** ** The calendar *)

Definition is_leap (y : Z) : bool :=
  bool_decide (y mod 4 = 0) && (negb (bool_decide (y mod 100 = 0)) || bool_decide (y mod 400 = 0)).

Definition days_in_month (y m : Z) : Z :=
  if bool_decide (m = 2) then (if is_leap y then 29 else 28)
  else if bool_decide (m = 4 ∨ m = 6 ∨ m = 9 ∨ m = 11) then 30
  else 31.

(** What the [datetime] constructor accepts (MINYEAR = 1, MAXYEAR = 9999). *)
Definition valid_date (y m d : Z) : bool :=
  bool_decide (1 ≤ y ≤ 9999) && bool_decide (1 ≤ m ≤ 12)
  && bool_decide (1 ≤ d ≤ days_in_month y m).

(** ** Format strings *)

Inductive directive : Type := DirY | Dirm | Dird.

Inductive fmt_item : Type :=
  | Lit (c : ascii)
  | Dir (d : directive)
  | Other (c : ascii)
  | Stray.

Definition percent_item (c : ascii) : fmt_item :=
  if bool_decide (c = "Y"%char) then Dir DirY
  else if bool_decide (c = "m"%char) then Dir Dirm
  else if bool_decide (c = "d"%char) then Dir Dird
  else if bool_decide (c = "%"%char) then Lit "%"
  else Other c.

Fixpoint parse_format (f : string) : list fmt_item :=
  match f with
  | EmptyString => []
  | String c f1 =>
      if bool_decide (c = "%"%char) then
        match f1 with
        | EmptyString => [Stray]
        | String d f2 => percent_item d :: parse_format f2
        end
      else Lit c :: parse_format f1
  end.

(** The directives of a format, by the letter that names them. *)
Definition directives (items : list fmt_item) : list ascii :=
  omap (λ it, match it with
              | Dir DirY => Some "Y"%char
              | Dir Dirm => Some "m"%char
              | Dir Dird => Some "d"%char
              | _ => None
              end) items.

Definition is_space (c : ascii) : bool :=
  let n := N_of_ascii c in
  bool_decide (n = 32 ∨ 9 ≤ n ≤ 13)%N.

Definition modelled_item (it : fmt_item) : bool :=
  match it with
  | Lit _ | Dir _ => true
  | Other _ | Stray => false
  end.

Definition blank_item (it : fmt_item) : bool :=
  match it with
  | Lit c => is_space c
  | _ => false
  end.

(** ** [datetime.strptime]

    CPython turns the format into a regular expression, one group per
    directive, compiled with IGNORECASE:
      %Y  (?P<Y>\d\d\d\d)
      %m  (?P<m>1[0-2]|0[1-9]|[1-9])
      %d  (?P<d>3[0-1]|[1-2]\d|0[1-9]|[1-9]| [1-9])
    and matches it at the start of the data with backtracking, then
    rejects data left over.  Strings are byte strings here and \d is an
    ASCII digit; Python's \d also matches the decimal digits of other
    scripts and IGNORECASE folds some letters outside ASCII, so data or a
    format with a byte outside ASCII is outside the model. *)

Definition is_ascii (c : ascii) : bool := bool_decide (N_of_ascii c < 128)%N.

Definition ascii_only (s : string) : bool :=
  forallb is_ascii (String.list_ascii_of_string s).

Definition digit_val (c : ascii) : option Z :=
  let n := Z.of_N (N_of_ascii c) in
  if bool_decide (48 ≤ n ≤ 57) then Some (n - 48) else None.

Definition digit_in (lo hi : Z) (c : ascii) : option Z :=
  match digit_val c with
  | Some v => if bool_decide (lo ≤ v ≤ hi) then Some v else None
  | None => None
  end.

(** The ways one alternative can match a prefix of the data: the number
    read and the data left. *)
Definition rx_digit (lo hi : Z) (s : string) : list (Z * string) :=
  match s with
  | String c rest =>
      match digit_in lo hi c with
      | Some a => [(a, rest)]
      | None => []
      end
  | EmptyString => []
  end.

Definition rx_digits2 (lo1 hi1 lo2 hi2 : Z) (s : string) : list (Z * string) :=
  match s with
  | String c rest =>
      match digit_in lo1 hi1 c with
      | Some a => prod_map (λ b, 10 * a + b) id <$> rx_digit lo2 hi2 rest
      | None => []
      end
  | EmptyString => []
  end.

Definition rx_digits4 (s : string) : list (Z * string) :=
  match s with
  | String c1 (String c2 rest) =>
      match digit_val c1, digit_val c2 with
      | Some a, Some b =>
          prod_map (λ cd, 1000 * a + 100 * b + cd) id <$> rx_digits2 0 9 0 9 rest
      | _, _ => []
      end
  | _ => []
  end.

Definition rx_space_digit (s : string) : list (Z * string) :=
  match s with
  | String c rest => if bool_decide (c = " "%char) then rx_digit 1 9 rest else []
  | EmptyString => []
  end.

(** The alternatives of a group, in the order the regular expression
    tries them. *)
Definition directive_regex (d : directive) (s : string) : list (Z * string) :=
  match d with
  | DirY => rx_digits4 s
  | Dirm => rx_digits2 1 1 0 2 s ++ rx_digits2 0 0 1 9 s ++ rx_digit 1 9 s
  | Dird => rx_digits2 3 3 0 1 s ++ rx_digits2 1 2 0 9 s ++ rx_digits2 0 0 1 9 s
            ++ rx_digit 1 9 s ++ rx_space_digit s
  end.

(** The groups read so far; [strptime] starts from
    [year = None; month = day = 1]. *)
Record fields := Fields { f_year : option Z; f_month : Z; f_day : Z }.

Definition no_fields : fields := Fields None 1 1.

Definition set_field (d : directive) (v : Z) (fs : fields) : fields :=
  match d with
  | DirY => Fields (Some v) (f_month fs) (f_day fs)
  | Dirm => Fields (f_year fs) v (f_day fs)
  | Dird => Fields (f_year fs) (f_month fs) v
  end.

Fixpoint first_some {A B} (f : A → option B) (l : list A) : option B :=
  match l with
  | [] => None
  | a :: l' =>
      match f a with
      | Some b => Some b
      | None => first_some f l'
      end
  end.

Definition lower (c : ascii) : ascii :=
  let n := N_of_ascii c in
  if bool_decide (65 ≤ n ≤ 90)%N then ascii_of_N (n + 32) else c.

(** [re.match]: the first way, in priority order, to match all items;
    returns the groups and the data not consumed. *)
Fixpoint rx_match (items : list fmt_item) (s : string) (fs : fields)
  : option (fields * string) :=
  match items with
  | [] => Some (fs, s)
  | Lit c :: items' =>
      match s with
      | String c' s' =>
          if bool_decide (lower c = lower c') then rx_match items' s' fs else None
      | EmptyString => None
      end
  | Dir d :: items' =>
      first_some (λ m, rx_match items' m.2 (set_field d m.1 fs)) (directive_regex d s)
  | _ => None
  end.

(** What [strptime] makes of the match: no match and data left over are
    a ValueError; a format without %Y means the year 1900 (for the 29th of
    February CPython computes with 1904 and then puts 1900 back); the
    [datetime] constructor then rejects a day that is on no calendar. *)
Definition datetime_of_match (found : option (fields * string)) : result value :=
  match found with
  | None => Raise ValueError
  | Some (fs, String _ _) => Raise ValueError
  | Some (fs, EmptyString) =>
      let y := match f_year fs with Some y => y | None => 1900 end in
      if valid_date y (f_month fs) (f_day fs)
      then Ok (VDatetime (Datetime y (f_month fs) (f_day fs)))
      else Raise ValueError
  end.

Definition strptime (data_string format : value) : result value :=
  match data_string, format with
  | VStr s, VStr f =>
      let items := parse_format f in
      if negb (ascii_only s && ascii_only f)
         || negb (forallb modelled_item items) || existsb blank_item items
      then Raise OutsideModel
      else if negb (bool_decide (NoDup (directives items))) then Raise ReError
      else datetime_of_match (rx_match items s no_fields)
  | _, _ => Raise TypeError
  end.

(** ** [datetime.strftime] *)

Fixpoint zeros (n : nat) : string :=
  match n with
  | O => EmptyString
  | S n' => String "0" (zeros n')
  end.

(** A non-negative number in at least [w] digits, as C's %0wd. *)
Definition pad0 (w : nat) (n : Z) : string :=
  let s := pretty n in zeros (w - String.length s) +:+ s.

(** %m and %d are in two digits.  %Y is left to C's strftime, and glibc
    prints the year in decimal without padding: 2021 is "2021" and 999 is
    "999".  (From 3.13 on CPython pads the year to four digits itself; the
    two differ for the years below 1000 only.  This is CPython before 3.13
    on glibc.) *)
Definition render_item (dt : datetime) (it : fmt_item) : string :=
  match it with
  | Lit c => String c EmptyString
  | Dir DirY => pretty (year dt)
  | Dir Dirm => pad0 2 (month dt)
  | Dir Dird => pad0 2 (day dt)
  | Other _ | Stray => EmptyString
  end.

Definition strftime (date format : value) : result value :=
  match date, format with
  | VDatetime dt, VStr f =>
      let items := parse_format f in
      if negb (forallb modelled_item items) then Raise OutsideModel
      else Ok (VStr (foldr (λ it acc, render_item dt it +:+ acc) EmptyString items))
  | _, _ => Raise TypeError
  end.

(** ** Console output and string formatting *)

(** [print(a, b, ...)] writes the [str] of its arguments, separated by
    spaces, as one line, and returns [None]; the arguments arrive here
    already converted. *)
Definition print (args : list string) : Py value :=
  (Ok VNone, [EPrint (String.concat " " args)]).

(** [template.format(arg)] for a template with one replacement field. *)
Fixpoint format1 (template arg : string) : string :=
  match template with
  | EmptyString => EmptyString
  | String c t1 =>
      match t1 with
      | String c' t2 =>
          if bool_decide (c = "{"%char ∧ c' = "}"%char) then arg +:+ t2
          else String c (format1 t1 arg)
      | EmptyString => String c EmptyString
      end
  end.

(** A dictionary display [{k1: v1, k2: v2, ...}]. *)
Definition dict_literal (items : list (string * value)) : gmap string value :=
  foldl (λ d kv, <[kv.1 := kv.2]> d) ∅ items.

(** ** The script *)

(** Passenger's booking details, hardcoded. *)
Definition passengers : value :=
  VList [VDict (dict_literal [
    ("title", VStr "Mr");
    ("firstName", VStr "John");
    ("lastName", VStr "Doe");
    ("documentID", VStr "111");
    ("email", VStr "test@test.com");
    ("birthday", VStr "1980-01-01")])].

Definition convert_date (date format type : value) : Py value :=
  if eq_str type "object" then lift (strptime date format)
  else if eq_str type "string" then lift (strftime date format)
  else
    print ["Unsupported convertsion"] ;;;
    py_ret VNone.

Definition prepare_payload (search_options : value) : Py value :=
  date <~ lift (getitem_key search_options "--date") ;;
  dateFrom <~ convert_date date (VStr "%Y-%m-%d") (VStr "object") ;;
  nights <~ lift (getitem_key search_options "--return") ;;
  let typeFlight := if negb (is_none nights) then "round" else "oneway" in
  date_from <~ convert_date dateFrom (VStr "%d/%m/%Y") (VStr "string") ;;
  date_to <~ convert_date dateFrom (VStr "%d/%m/%Y") (VStr "string") ;;
  fly_from <~ lift (getitem_key search_options "--from") ;;
  to <~ lift (getitem_key search_options "--to") ;;
  cheapest <~ lift (getitem_key search_options "--cheapest") ;;
  let payload := dict_literal [
    ("v", VInt 3);
    ("dateFrom", date_from);
    ("dateTo", date_to);
    ("flyFrom", fly_from);
    ("to", to);
    ("typeFlight", VStr typeFlight);
    ("adults", VInt 1);
    ("limit", VInt 1);
    ("sort", VStr (if is_true cheapest then "price" else "duration"))] in
  if bool_decide (typeFlight = "round") then
    nights' <~ lift (getitem_key search_options "--return") ;;
    let payload1 := <["daysInDestinationFrom" := nights']> payload in
    days_from <~ lift (getitem_key (VDict payload1) "daysInDestinationFrom") ;;
    py_ret (VDict (<["daysInDestinationTo" := days_from]> payload1))
  else py_ret (VDict payload).

(** The world outside the script: the two HTTP services, the JSON decoder,
    and [str] of a list or dictionary (which depends on insertion order,
    not kept in a finite map). *)
Record response := Response { status_code : Z; text : string }.

Record runtime := Runtime {
  requests_get : string → value → result response;
  requests_post : string → value → result response;
  json_loads : string → result value;
  container_str : value → string }.

Definition search_url : string := "https://api.skypicker.com/flights".
Definition booking_url : string := "http://128.199.48.38:8080/booking".

Section Script.

Context (rt : runtime).

(** The builtin [str]. *)
Definition py_str (v : value) : string :=
  match v with
  | VNone => "None"
  | VBool true => "True"
  | VBool false => "False"
  | VInt n => pretty n
  | VFloat r => r
  | VStr s => s
  | VDatetime dt =>
      pad0 4 (year dt) +:+ "-" +:+ pad0 2 (month dt) +:+ "-" +:+ pad0 2 (day dt)
      +:+ " 00:00:00"
  | VList _ | VDict _ => container_str rt v
  end.

Definition http_get (url : string) (params : value) : Py response :=
  (requests_get rt url params, [EGet url params]).

Definition http_post (url : string) (json : value) : Py response :=
  (requests_post rt url json, [EPost url json]).

Definition get_flights (payload : value) : Py value :=
  flights <~ http_get search_url payload ;;
  if bool_decide (status_code flights ≠ 200) then
    print [format1 "Error while connecting to API. Response code: {}"
                   (py_str (VInt (status_code flights)))] ;;;
    py_ret VNone
  else lift (json_loads rt (text flights)).

Definition book_flight (search_options flight_details passengers : value)
  : Py value :=
  data <~ lift (getitem_key flight_details "data") ;;
  flight_data <~ lift (getitem_index data 0) ;;
  currency <~ lift (getitem_key flight_details "currency") ;;
  bags <~ lift (getitem_key search_options "--bags") ;;
  booking_token <~ lift (getitem_key flight_data "booking_token") ;;
  let payload := dict_literal [
    ("currency", currency);
    ("passengers", passengers);
    ("bags", bags);
    ("booking_token", booking_token)] in
  r <~ http_post booking_url (VDict payload) ;;
  lift (json_loads rt (text r)).

(** [flight_details['data'][0][key]] *)
Definition first_flight_field (flight_details : value) (key : string)
  : Py value :=
  data <~ lift (getitem_key flight_details "data") ;;
  first <~ lift (getitem_index data 0) ;;
  lift (getitem_key first key).

Definition search_and_book (search_options : value) : Py value :=
  payload <~ prepare_payload search_options ;;
  flight_details <~ get_flights payload ;;
  booking <~ book_flight search_options flight_details passengers ;;
  status <~ lift (getitem_key booking "status") ;;
  if eq_str status "confirmed" then
    currency <~ lift (getitem_key flight_details "currency") ;;
    price <~ first_flight_field flight_details "price" ;;
    flyFrom <~ first_flight_field flight_details "cityFrom" ;;
    flyTo <~ first_flight_field flight_details "cityTo" ;;
    print [py_str currency] ;;;
    print ["Flight succesfully booked"] ;;;
    print ["Price:"; py_str price; py_str currency] ;;;
    print ["Departure:"; py_str flyFrom] ;;;
    print ["Arrival:"; py_str flyTo] ;;;
    pnr <~ lift (getitem_key booking "pnr") ;;
    print [format1 "Your booking number is {}" (py_str pnr)] ;;;
    py_ret VNone
  else
    print ["Could not book the flight"] ;;;
    py_ret VNone.

End Script.

(** ** Well-formed inputs *)

(** A date written yyyy-mm-dd, as the command line asks for it: four
    digits, a hyphen, two digits, a hyphen, two digits, naming a day of
    the calendar.  Gives the day it names. *)
Definition iso_date (s : string) : option datetime :=
  match String.list_ascii_of_string s with
  | [y1; y2; y3; y4; h1; m1; m2; h2; d1; d2] =>
      match digit_val y1, digit_val y2, digit_val y3, digit_val y4,
            digit_val m1, digit_val m2, digit_val d1, digit_val d2 with
      | Some a, Some b, Some c, Some d, Some e, Some f, Some g, Some h =>
          let y := 1000 * a + 100 * b + (10 * c + d) in
          let m := 10 * e + f in
          let d := 10 * g + h in
          if bool_decide (h1 = "-"%char ∧ h2 = "-"%char) && valid_date y m d
          then Some (Datetime y m d)
          else None
      | _, _, _, _, _, _, _, _ => None
      end
  | _ => None
  end.


(** What docopt hands to the script for a well-formed command line: the
    date is a yyyy-mm-dd string and the options the payload is built from
    are all present (an option not given is present with its default). *)
Record search_options_ok (o : gmap string value) (date : string) : Prop := {
  so_date : o !! "--date" = Some (VStr date);
  so_iso : is_Some (iso_date date);
  so_return : is_Some (o !! "--return");
  so_from : is_Some (o !! "--from");
  so_to : is_Some (o !! "--to");
  so_cheapest : is_Some (o !! "--cheapest") }.

(** A computation that performs no event. *)
Definition silent {A} (m : Py A) : Prop := m.2 = [].

(** The character of a digit. *)
Definition digit_char (v : Z) : ascii := ascii_of_N (Z.to_N (v + 48)).

Definition all_digits : list Z := [0; 1; 2; 3; 4; 5; 6; 7; 8; 9].

(** ** Sample inputs *)

(** docopt's result for
    [--date=2021-09-01 --from=PRG --to=LON --one-way --cheapest --bags=1]. *)
Definition sample_options : gmap string value :=
  dict_literal [
    ("--date", VStr "2021-09-01");
    ("--from", VStr "PRG");
    ("--to", VStr "LON");
    ("--one-way", VBool true);
    ("--return", VNone);
    ("--cheapest", VBool true);
    ("--fastest", VBool false);
    ("--bags", VStr "1")].

Definition sample_payload : gmap string value :=
  dict_literal [
    ("v", VInt 3);
    ("dateFrom", VStr "01/09/2021");
    ("dateTo", VStr "01/09/2021");
    ("flyFrom", VStr "PRG");
    ("to", VStr "LON");
    ("typeFlight", VStr "oneway");
    ("adults", VInt 1);
    ("limit", VInt 1);
    ("sort", VStr "price")].

(** The same search as a return trip of five nights. *)
Definition sample_return_options : gmap string value :=
  <["--return" := VStr "5"]> sample_options.

(** A search result with one flight, and a booking response. *)
Definition sample_flights : value :=
  VDict (dict_literal [
    ("currency", VStr "EUR");
    ("data", VList [VDict (dict_literal [
       ("price", VInt 100);
       ("cityFrom", VStr "Prague");
       ("cityTo", VStr "London");
       ("booking_token", VStr "token")])])]).

Definition sample_booking (status : string) : value :=
  VDict (dict_literal [("status", VStr status); ("pnr", VStr "ABC123")]).

(** A world where the search service answers with status [code] and the
    body "flights", the booking service with the body "booking", and the
    decoder reads these two bodies as the values above. *)
Definition sample_world (code : Z) (status : string) : runtime :=
  Runtime
    (λ _ _, Ok (Response code "flights"))
    (λ _ _, Ok (Response 200 "booking"))
    (λ body,
       if bool_decide (body = "flights") then Ok sample_flights
       else if bool_decide (body = "booking") then Ok (sample_booking status)
       else Raise (ExternalError "JSONDecodeError"))
    (λ _, "").

(** ** What the orchestrator reports *)

(** The lines printed for a confirmed booking. *)
Definition confirmation_lines (rt : runtime)
    (currency price city_from city_to pnr : value) : list event :=
  [EPrint (py_str rt currency);
   EPrint "Flight succesfully booked";
   EPrint ("Price: " +:+ py_str rt price +:+ " " +:+ py_str rt currency);
   EPrint ("Departure: " +:+ py_str rt city_from);
   EPrint ("Arrival: " +:+ py_str rt city_to);
   EPrint ("Your booking number is " +:+ py_str rt pnr)].

(** The fields of a search result the report reads. *)
Record flight_fields (fd : gmap string value)
    (currency price city_from city_to : value) : Prop := {
  ff_currency : fd !! "currency" = Some currency;
  ff_first : ∃ (first : gmap string value) (others : list value),
      fd !! "data" = Some (VList (VDict first :: others))
      ∧ first !! "price" = Some price
      ∧ first !! "cityFrom" = Some city_from
      ∧ first !! "cityTo" = Some city_to }.

(** ** More vocabulary for the properties *)

Definition is_print (e : event) : bool :=
  match e with EPrint _ => true | _ => false end.

(** A string of the shape dddd-dd-dd, whether or not it names a day. *)
Definition iso_shape (s : string) : bool :=
  match String.list_ascii_of_string s with
  | [y1; y2; y3; y4; h1; m1; m2; h2; d1; d2] =>
      forallb (λ c, bool_decide (is_Some (digit_val c)))
              [y1; y2; y3; y4; m1; m2; d1; d2]
      && bool_decide (h1 = "-"%char ∧ h2 = "-"%char)
  | _ => false
  end.

(** A date as [strftime] writes it with '%d/%m/%Y' and with '%Y-%m-%d':
    day and month in two digits, the year in decimal. *)
Definition render_dmy (dt : datetime) : string :=
  pad0 2 (day dt) +:+ "/" +:+ pad0 2 (month dt) +:+ "/" +:+ pretty (year dt).

Definition render_ymd (dt : datetime) : string :=
  pretty (year dt) +:+ "-" +:+ pad0 2 (month dt) +:+ "-" +:+ pad0 2 (day dt).

(** The keys of a one-way payload; a round-trip payload has two more. *)
Definition one_way_keys : gset string :=
  list_to_set ["v"; "dateFrom"; "dateTo"; "flyFrom"; "to"; "typeFlight";
               "adults"; "limit"; "sort"].

Definition round_trip_keys : gset string :=
  one_way_keys ∪ list_to_set ["daysInDestinationFrom"; "daysInDestinationTo"].

(** A day that is on no calendar. *)
Definition sample_impossible_options : gmap string value :=
  <["--date" := VStr "2021-02-30"]> sample_options.

(** The sample search with other bags and flags. *)
Definition sample_other_options : gmap string value :=
  <["--bags" := VStr "7"]> (<["--fastest" := VBool true]>
    (<["--one-way" := VBool false]> sample_options)).

(** The last part of [search_and_book]: the report it prints from the
    search result and the booking response. *)
Definition report_booking (rt : runtime) (flight_details booking : value)
  : Py value :=
  status <~ lift (getitem_key booking "status") ;;
  if eq_str status "confirmed" then
    currency <~ lift (getitem_key flight_details "currency") ;;
    price <~ first_flight_field flight_details "price" ;;
    flyFrom <~ first_flight_field flight_details "cityFrom" ;;
    flyTo <~ first_flight_field flight_details "cityTo" ;;
    print [py_str rt currency] ;;;
    print ["Flight succesfully booked"] ;;;
    print ["Price:"; py_str rt price; py_str rt currency] ;;;
    print ["Departure:"; py_str rt flyFrom] ;;;
    print ["Arrival:"; py_str rt flyTo] ;;;
    pnr <~ lift (getitem_key booking "pnr") ;;
    print [format1 "Your booking number is {}" (py_str rt pnr)] ;;;
    py_ret VNone
  else
    print ["Could not book the flight"] ;;;
    py_ret VNone.

(** The order a run keeps: nothing at all, or one GET to the search
    service followed by printed lines only, or by one POST to the booking
    service and then printed lines only. *)
Definition events_in_order (t : list event) : bool :=
  match t with
  | [] => true
  | EGet url _ :: rest =>
      bool_decide (url = search_url)
      && (forallb is_print rest
          || match rest with
             | EPost url' _ :: rest' =>
                 bool_decide (url' = booking_url) && forallb is_print rest'
             | _ => false
             end)
  | _ => false
  end.

(** A computation that only prints. *)
Definition prints_only {A} (m : Py A) : Prop := forallb is_print m.2 = true.

(** The keys of a booking request. *)
Definition booking_keys : gset string :=
  list_to_set ["currency"; "passengers"; "bags"; "booking_token"].

(** Two search results with the same first flight and currency; the
    second has another flight after it and one more field. *)
Definition sample_first_flight : value :=
  VDict (dict_literal [
    ("price", VInt 100);
    ("cityFrom", VStr "Prague");
    ("cityTo", VStr "London");
    ("booking_token", VStr "token")]).

Definition sample_result : gmap string value :=
  dict_literal [("currency", VStr "EUR"); ("data", VList [sample_first_flight])].

Definition sample_longer_result : gmap string value :=
  dict_literal [
    ("currency", VStr "EUR");
    ("data", VList [sample_first_flight; VDict (dict_literal [("price", VInt 1)])]);
    ("search_id", VStr "abc")].

(** A world whose search service cannot be reached. *)
Definition offline_world : runtime :=
  Runtime
    (λ _ _, Raise (ExternalError "ConnectionError"))
    (λ _ _, Raise (ExternalError "ConnectionError"))
    (λ _, Raise (ExternalError "JSONDecodeError"))
    (λ _, "").

(** A booking response that is confirmed but carries no reference, and
    a world whose booking service sends it. *)
Definition sample_booking_no_pnr : value :=
  VDict (dict_literal [("status", VStr "confirmed")]).

Definition no_pnr_world : runtime :=
  Runtime
    (λ _ _, Ok (Response 200 "flights"))
    (λ _ _, Ok (Response 200 "booking"))
    (λ body,
       if bool_decide (body = "flights") then Ok sample_flights
       else Ok sample_booking_no_pnr)
    (λ _, "").

(** A world whose booking service answers with an empty JSON object. *)
Definition empty_booking_world : runtime :=
  Runtime
    (λ _ _, Ok (Response 200 "flights"))
    (λ _ _, Ok (Response 200 "{}"))
    (λ body,
       if bool_decide (body = "flights") then Ok sample_flights
       else Ok (VDict ∅))
    (λ _, "").

(** * Properties *)

(** ** The monad *)

Lemma bind_ok {A B} (a : A) (f : A → Py B) : py_bind (lift (Ok a)) f = f a.
Proof. unfold py_bind, lift. by destruct (f a). Qed.

Lemma bind_ret {A B} (a : A) (f : A → Py B) : py_bind (py_ret a) f = f a.
Proof. apply bind_ok. Qed.

Lemma bind_raise {A B} (e : exn) (f : A → Py B) :
  py_bind (lift (Raise e)) f = (Raise e, []).
Proof. reflexivity. Qed.

Lemma bind_run {A B} (m : Py A) (f : A → Py B) a t r t' :
  m = (Ok a, t) → f a = (r, t') → py_bind m f = (r, t ++ t').
Proof. intros -> Hf. unfold py_bind. by rewrite Hf. Qed.

Lemma bind_silent {A B} (m : Py A) (f : A → Py B) a x :
  m = (Ok a, []) → f a = x → py_bind m f = x.
Proof. intros -> <-. unfold py_bind. by destruct (f a). Qed.

Lemma bind_silent_eq {A B} (a : A) (f : A → Py B) : py_bind (Ok a, []) f = f a.
Proof. apply bind_ok. Qed.

Lemma bind_print {B} (args : list string) (f : value → Py B) r t :
  f VNone = (r, t) →
  py_bind (print args) f = (r, EPrint (String.concat " " args) :: t).
Proof. intros Hf. unfold py_bind, print. by rewrite Hf. Qed.

Lemma bind_run_silent {A B} (m : Py A) (f : A → Py B) a t r :
  m = (Ok a, t) → f a = (r, []) → py_bind m f = (r, t).
Proof. intros Hm Hf. rewrite (bind_run _ _ _ _ _ _ Hm Hf). by rewrite app_nil_r. Qed.

Lemma silent_lift {A} (r : result A) : silent (lift r).
Proof. reflexivity. Qed.

Lemma silent_ret {A} (a : A) : silent (py_ret a).
Proof. reflexivity. Qed.

Lemma silent_bind {A B} (m : Py A) (f : A → Py B) :
  silent m → (∀ a, silent (f a)) → silent (py_bind m f).
Proof.
  unfold silent, py_bind. destruct m as [[a|e] t]; simpl; intros -> Hf; [|done].
  specialize (Hf a). destruct (f a) as [r t']. simpl in *. by subst.
Qed.

(** ** Digits *)

Lemma digit_val_inv (c : ascii) (v : Z) :
  digit_val c = Some v → 0 ≤ v ≤ 9 ∧ c = digit_char v.
Proof.
  unfold digit_val, digit_char. case_bool_decide; [|done].
  intros [= <-]. split; [lia|].
  replace (Z.of_N (N_of_ascii c) - 48 + 48) with (Z.of_N (N_of_ascii c)) by lia.
  by rewrite N2Z.id, ascii_N_embedding.
Qed.

Lemma elem_of_all_digits (v : Z) : 0 ≤ v ≤ 9 → v ∈ all_digits.
Proof.
  intros Hv. unfold all_digits. rewrite !elem_of_cons. lia.
Qed.

Lemma digit_val_char (v : Z) : 0 ≤ v ≤ 9 → digit_val (digit_char v) = Some v.
Proof.
  intros Hv%elem_of_all_digits. revert v Hv. apply Forall_forall.
  by repeat constructor.
Qed.

Lemma digit_in_range (lo hi : Z) (c : ascii) (v : Z) :
  digit_val c = Some v → lo ≤ v ≤ hi → digit_in lo hi c = Some v.
Proof. unfold digit_in. intros -> ?. by rewrite bool_decide_true. Qed.

Lemma digit_in_out (lo hi : Z) (c : ascii) (v : Z) :
  digit_val c = Some v → ¬ (lo ≤ v ≤ hi) → digit_in lo hi c = None.
Proof. unfold digit_in. intros -> ?. by rewrite bool_decide_false. Qed.

(** Printing a number below 100 in two digits, below 10000 in four. *)
Lemma pad0_2_digits (a b : Z) :
  0 ≤ a ≤ 9 → 0 ≤ b ≤ 9 →
  pad0 2 (10 * a + b) = String (digit_char a) (String (digit_char b) EmptyString).
Proof.
  intros Ha%elem_of_all_digits Hb%elem_of_all_digits.
  assert (forallb (λ a, forallb (λ b,
    bool_decide (pad0 2 (10 * a + b)
                 = String (digit_char a) (String (digit_char b) EmptyString)))
    all_digits) all_digits = true) as H by (vm_compute; reflexivity).
  apply list_elem_of_In in Ha, Hb.
  rewrite forallb_forall in H. specialize (H a Ha).
  rewrite forallb_forall in H. specialize (H b Hb).
  by apply bool_decide_eq_true in H.
Qed.

Lemma pad0_4_digits (a b c d : Z) :
  0 ≤ a ≤ 9 → 0 ≤ b ≤ 9 → 0 ≤ c ≤ 9 → 0 ≤ d ≤ 9 →
  pad0 4 (1000 * a + 100 * b + (10 * c + d))
  = String (digit_char a) (String (digit_char b)
      (String (digit_char c) (String (digit_char d) EmptyString))).
Proof.
  intros Ha%elem_of_all_digits Hb%elem_of_all_digits
         Hc%elem_of_all_digits Hd%elem_of_all_digits.
  assert (forallb (λ a, forallb (λ b, forallb (λ c, forallb (λ d,
    bool_decide (pad0 4 (1000 * a + 100 * b + (10 * c + d))
                 = String (digit_char a) (String (digit_char b)
                     (String (digit_char c) (String (digit_char d) EmptyString)))))
    all_digits) all_digits) all_digits) all_digits = true) as H
    by (vm_compute; reflexivity).
  apply list_elem_of_In in Ha, Hb, Hc, Hd.
  rewrite forallb_forall in H. specialize (H a Ha).
  rewrite forallb_forall in H. specialize (H b Hb).
  rewrite forallb_forall in H. specialize (H c Hc).
  rewrite forallb_forall in H. specialize (H d Hd).
  by apply bool_decide_eq_true in H.
Qed.

(** From the year 1000 on the decimal year has four digits. *)
Lemma pretty_4_digits (a b c d : Z) :
  1 ≤ a ≤ 9 → 0 ≤ b ≤ 9 → 0 ≤ c ≤ 9 → 0 ≤ d ≤ 9 →
  pretty (1000 * a + 100 * b + (10 * c + d))
  = String (digit_char a) (String (digit_char b)
      (String (digit_char c) (String (digit_char d) EmptyString))).
Proof.
  intros Ha Hb%elem_of_all_digits Hc%elem_of_all_digits Hd%elem_of_all_digits.
  assert (a ∈ all_digits) as Ha' by (apply elem_of_all_digits; lia).
  assert (forallb (λ a, forallb (λ b, forallb (λ c, forallb (λ d,
    bool_decide (a = 0)
    || bool_decide (pretty (1000 * a + 100 * b + (10 * c + d))
                    = String (digit_char a) (String (digit_char b)
                        (String (digit_char c) (String (digit_char d) EmptyString)))))
    all_digits) all_digits) all_digits) all_digits = true) as H
    by (vm_compute; reflexivity).
  apply list_elem_of_In in Ha', Hb, Hc, Hd.
  rewrite forallb_forall in H. specialize (H a Ha').
  rewrite forallb_forall in H. specialize (H b Hb).
  rewrite forallb_forall in H. specialize (H c Hc).
  rewrite forallb_forall in H. specialize (H d Hd).
  apply orb_prop in H as [H|H]; apply bool_decide_eq_true in H; [lia|done].
Qed.

Lemma digit_is_ascii (c : ascii) (v : Z) : digit_val c = Some v → is_ascii c = true.
Proof.
  unfold digit_val, is_ascii. case_bool_decide; [|done].
  intros _. apply bool_decide_eq_true. lia.
Qed.

Lemma digit_char_ascii (v : Z) : 0 ≤ v ≤ 9 → is_ascii (digit_char v) = true.
Proof. intros Hv. by apply (digit_is_ascii _ v), digit_val_char. Qed.

(** Proves that a string spelled out in digits and ASCII literals is
    ASCII. *)
Ltac solve_ascii :=
  cbn [ascii_only String.list_ascii_of_string forallb];
  repeat match goal with
         | H : digit_val ?c = Some _ |- context [is_ascii ?c] =>
             rewrite (digit_is_ascii _ _ H)
         end;
  rewrite ?digit_char_ascii by done;
  reflexivity.

(** ** Parsing a yyyy-mm-dd date *)

Lemma days_in_month_le (y m : Z) : days_in_month y m ≤ 31.
Proof.
  unfold days_in_month. destruct (is_leap y); repeat case_bool_decide; lia.
Qed.

Lemma rx_digits2_match lo1 hi1 lo2 hi2 c1 c2 rest a b :
  digit_val c1 = Some a → digit_val c2 = Some b →
  lo1 ≤ a ≤ hi1 → lo2 ≤ b ≤ hi2 →
  rx_digits2 lo1 hi1 lo2 hi2 (String c1 (String c2 rest)) = [(10 * a + b, rest)].
Proof.
  intros Ha Hb ??. unfold rx_digits2, rx_digit.
  by rewrite (digit_in_range _ _ _ _ Ha), (digit_in_range _ _ _ _ Hb).
Qed.

Lemma rx_digits2_skip1 lo1 hi1 lo2 hi2 c1 rest a :
  digit_val c1 = Some a → ¬ (lo1 ≤ a ≤ hi1) →
  rx_digits2 lo1 hi1 lo2 hi2 (String c1 rest) = [].
Proof.
  intros Ha ?. unfold rx_digits2. by rewrite (digit_in_out _ _ _ _ Ha).
Qed.

Lemma year_regex c1 c2 c3 c4 rest a b c d :
  digit_val c1 = Some a → digit_val c2 = Some b →
  digit_val c3 = Some c → digit_val c4 = Some d →
  directive_regex DirY (String c1 (String c2 (String c3 (String c4 rest))))
  = [(1000 * a + 100 * b + (10 * c + d), rest)].
Proof.
  intros Ha Hb Hc Hd. unfold directive_regex, rx_digits4. rewrite Ha, Hb.
  destruct (digit_val_inv _ _ Hc), (digit_val_inv _ _ Hd).
  by rewrite (rx_digits2_match 0 9 0 9 _ _ _ _ _ Hc Hd).
Qed.

(** For a two-digit month the alternative tried first that matches reads
    both digits. *)
Lemma month_regex c1 c2 rest a b :
  digit_val c1 = Some a → digit_val c2 = Some b → 1 ≤ 10 * a + b ≤ 12 →
  ∃ others, directive_regex Dirm (String c1 (String c2 rest))
            = (10 * a + b, rest) :: others.
Proof.
  intros Ha Hb Hm. unfold directive_regex.
  destruct (digit_val_inv _ _ Ha) as [? _], (digit_val_inv _ _ Hb) as [? _].
  destruct (decide (a = 1)) as [->|].
  - rewrite (rx_digits2_match 1 1 0 2 _ _ _ _ _ Ha Hb) by lia. eauto.
  - rewrite (rx_digits2_skip1 1 1 0 2 _ _ _ Ha) by lia.
    rewrite (rx_digits2_match 0 0 1 9 _ _ _ _ _ Ha Hb) by lia. eauto.
Qed.

Lemma day_regex c1 c2 rest a b :
  digit_val c1 = Some a → digit_val c2 = Some b → 1 ≤ 10 * a + b ≤ 31 →
  ∃ others, directive_regex Dird (String c1 (String c2 rest))
            = (10 * a + b, rest) :: others.
Proof.
  intros Ha Hb Hm. unfold directive_regex.
  destruct (digit_val_inv _ _ Ha) as [? _], (digit_val_inv _ _ Hb) as [? _].
  destruct (decide (a = 3)) as [->|].
  { rewrite (rx_digits2_match 3 3 0 1 _ _ _ _ _ Ha Hb) by lia. eauto. }
  rewrite (rx_digits2_skip1 3 3 0 1 _ _ _ Ha) by lia.
  destruct (decide (a = 0)) as [->|].
  - rewrite (rx_digits2_skip1 1 2 0 9 _ _ _ Ha) by lia.
    rewrite (rx_digits2_match 0 0 1 9 _ _ _ _ _ Ha Hb) by lia. eauto.
  - rewrite (rx_digits2_match 1 2 0 9 _ _ _ _ _ Ha Hb) by lia. eauto.
Qed.

Lemma rx_match_dir d items s fs v rest others r :
  directive_regex d s = (v, rest) :: others →
  rx_match items rest (set_field d v fs) = Some r →
  rx_match (Dir d :: items) s fs = Some r.
Proof. intros Hd Hr. simpl. rewrite Hd. simpl. by rewrite Hr. Qed.

Lemma rx_match_lit c items s fs :
  rx_match (Lit c :: items) (String c s) fs = rx_match items s fs.
Proof. simpl. by rewrite bool_decide_true. Qed.

Lemma parse_format_ymd :
  parse_format "%Y-%m-%d" = [Dir DirY; Lit "-"; Dir Dirm; Lit "-"; Dir Dird].
Proof. reflexivity. Qed.

Lemma parse_format_dmy :
  parse_format "%d/%m/%Y" = [Dir Dird; Lit "/"; Dir Dirm; Lit "/"; Dir DirY].
Proof. reflexivity. Qed.

Lemma strptime_ymd_eq (s : string) :
  ascii_only s = true →
  strptime (VStr s) (VStr "%Y-%m-%d")
  = datetime_of_match
      (rx_match [Dir DirY; Lit "-"; Dir Dirm; Lit "-"; Dir Dird] s no_fields).
Proof. intros H. unfold strptime. rewrite H. reflexivity. Qed.

Lemma strptime_dmy_eq (s : string) :
  ascii_only s = true →
  strptime (VStr s) (VStr "%d/%m/%Y")
  = datetime_of_match
      (rx_match [Dir Dird; Lit "/"; Dir Dirm; Lit "/"; Dir DirY] s no_fields).
Proof. intros H. unfold strptime. rewrite H. reflexivity. Qed.

(** The shape of a yyyy-mm-dd string. *)
Lemma iso_date_inv (s : string) (dt : datetime) :
  iso_date s = Some dt →
  ∃ c1 c2 c3 c4 c5 c6 c7 c8 a b c d e f g h,
    s = String c1 (String c2 (String c3 (String c4 (String "-"
          (String c5 (String c6 (String "-" (String c7 (String c8
          EmptyString)))))))))
    ∧ digit_val c1 = Some a ∧ digit_val c2 = Some b
    ∧ digit_val c3 = Some c ∧ digit_val c4 = Some d
    ∧ digit_val c5 = Some e ∧ digit_val c6 = Some f
    ∧ digit_val c7 = Some g ∧ digit_val c8 = Some h
    ∧ dt = Datetime (1000 * a + 100 * b + (10 * c + d)) (10 * e + f) (10 * g + h)
    ∧ valid_date (year dt) (month dt) (day dt) = true.
Proof.
  unfold iso_date. intros H.
  do 10 (destruct s as [|? s]; [done|]). destruct s; [|done].
  simpl in H.
  repeat match type of H with
         | context [digit_val ?c] => destruct (digit_val c) eqn:?; [|done]
         end.
  destruct (bool_decide _) eqn:Hh in H; [|done].
  apply bool_decide_eq_true in Hh as [-> ->].
  destruct (valid_date _ _ _) eqn:Hv in H; [|done].
  simpl in H. injection H as <-. repeat eexists; eauto.
Qed.

Lemma strptime_iso (s : string) (dt : datetime) :
  iso_date s = Some dt →
  strptime (VStr s) (VStr "%Y-%m-%d") = Ok (VDatetime dt).
Proof.
  intros (c1&c2&c3&c4&c5&c6&c7&c8&a&b&c&d&e&f&g&h&->&Ha&Hb&Hc&Hd&He&Hf&Hg&Hh&->&Hv)
    %iso_date_inv.
  simpl in Hv. rewrite strptime_ymd_eq by solve_ascii.
  pose proof Hv as Hv'. unfold valid_date in Hv'.
  apply andb_prop in Hv' as [[Hy Hm]%andb_prop Hday].
  apply bool_decide_eq_true in Hy, Hm, Hday.
  pose proof (days_in_month_le (1000 * a + 100 * b + (10 * c + d)) (10 * e + f)).
  destruct (month_regex c5 c6 (String "-" (String c7 (String c8 EmptyString)))
              e f He Hf Hm) as [om Hom].
  destruct (day_regex c7 c8 EmptyString g h Hg Hh ltac:(lia)) as [od Hod].
  erewrite rx_match_dir; [| by apply year_regex |].
  2:{ rewrite rx_match_lit. eapply rx_match_dir; [exact Hom|].
      rewrite rx_match_lit. eapply rx_match_dir; [exact Hod|]. reflexivity. }
  unfold datetime_of_match. simpl. by rewrite Hv.
Qed.

Lemma append_empty_r (s : string) : s +:+ "" = s.
Proof.
  induction s as [|c s IH]; [done|].
  change (String c (s +:+ "") = String c s). by rewrite IH.
Qed.

Lemma strftime_dmy (dt : datetime) :
  strftime (VDatetime dt) (VStr "%d/%m/%Y") = Ok (VStr (render_dmy dt)).
Proof.
  unfold strftime, render_dmy. rewrite parse_format_dmy. simpl.
  by rewrite append_empty_r.
Qed.


(** ** The search payload *)

Lemma convert_date_object (date format : value) :
  convert_date date format (VStr "object") = lift (strptime date format).
Proof. reflexivity. Qed.

Lemma convert_date_string (date format : value) :
  convert_date date format (VStr "string") = lift (strftime date format).
Proof. reflexivity. Qed.

Lemma getitem_key_dict (d : gmap string value) (k : string) (v : value) :
  d !! k = Some v → getitem_key (VDict d) k = Ok v.
Proof. intros H. unfold getitem_key. by rewrite H. Qed.

(** Runs a subscript [d['key']] whose key is known to be there. *)
Ltac step_key H := rewrite (getitem_key_dict _ _ _ H), bind_ok.

(** The payload built from well-formed options, field by field. *)
Lemma prepare_payload_run (o : gmap string value) date dt nights from to cheapest :
  o !! "--date" = Some (VStr date) → iso_date date = Some dt →
  o !! "--return" = Some nights → o !! "--from" = Some from →
  o !! "--to" = Some to → o !! "--cheapest" = Some cheapest →
  prepare_payload (VDict o)
  = (Ok (VDict
      (let fields := dict_literal [
         ("v", VInt 3);
         ("dateFrom", VStr (render_dmy dt));
         ("dateTo", VStr (render_dmy dt));
         ("flyFrom", from);
         ("to", to);
         ("typeFlight", VStr (if is_none nights then "oneway" else "round"));
         ("adults", VInt 1);
         ("limit", VInt 1);
         ("sort", VStr (if is_true cheapest then "price" else "duration"))] in
       if is_none nights then fields
       else <["daysInDestinationTo" := nights]>
              (<["daysInDestinationFrom" := nights]> fields))), []).
Proof.
  intros Hdate Hiso Hret Hfrom Hto Hch. unfold prepare_payload.
  step_key Hdate.
  rewrite convert_date_object, (strptime_iso _ _ Hiso), bind_ok.
  step_key Hret.
  rewrite convert_date_string, strftime_dmy, !bind_ok.
  step_key Hfrom.
  step_key Hto.
  step_key Hch.
  destruct (is_none nights); simpl negb; cbv iota.
  - by rewrite bool_decide_false.
  - rewrite bool_decide_true by done.
    rewrite bind_ok.
    rewrite (getitem_key_dict _ "daysInDestinationFrom" nights), bind_ok; [done|].
    apply lookup_insert_eq.
Qed.

Lemma prepare_payload_silent (search_options : value) :
  silent (prepare_payload search_options).
Proof.
  unfold prepare_payload.
  repeat first
    [ apply silent_lift | apply silent_ret
    | rewrite convert_date_object | rewrite convert_date_string
    | apply silent_bind; [|intros ?]
    | case_bool_decide ].
Qed.

Lemma sample_payload_run :
  prepare_payload (VDict sample_options) = (Ok (VDict sample_payload), []).
Proof. by vm_compute. Qed.

Lemma bind_ok_inv {A B} (m : Py A) (f : A → Py B) (b : B) (t : list event) :
  py_bind m f = (Ok b, t) →
  ∃ a t1 t2, m = (Ok a, t1) ∧ f a = (Ok b, t2) ∧ t = t1 ++ t2.
Proof.
  unfold py_bind. destruct m as [[a|e] t1]; [|done].
  destruct (f a) as [r t2] eqn:Hf. intros [= -> <-]. eauto 6.
Qed.

Lemma search_options_ok_run (o : gmap string value) (date : string) :
  search_options_ok o date →
  ∃ dt nights from to cheapest,
    iso_date date = Some dt
    ∧ o !! "--return" = Some nights ∧ o !! "--cheapest" = Some cheapest
    ∧ prepare_payload (VDict o)
      = (Ok (VDict
          (let fields := dict_literal [
             ("v", VInt 3);
             ("dateFrom", VStr (render_dmy dt));
             ("dateTo", VStr (render_dmy dt));
             ("flyFrom", from);
             ("to", to);
             ("typeFlight", VStr (if is_none nights then "oneway" else "round"));
             ("adults", VInt 1);
             ("limit", VInt 1);
             ("sort", VStr (if is_true cheapest then "price" else "duration"))] in
           if is_none nights then fields
           else <["daysInDestinationTo" := nights]>
                  (<["daysInDestinationFrom" := nights]> fields))), []).
Proof.
  intros [Hdate [dt Hiso] [nights Hret] [from Hfrom] [to Hto] [ch Hch]].
  exists dt, nights, from, to, ch. split_and!; [done..|].
  by eapply prepare_payload_run.
Qed.

(** C2: for valid one-way options (no return nights) the payload has
    typeFlight "oneway" and neither daysInDestinationFrom nor
    daysInDestinationTo. *)
Theorem one_way_payload (o : gmap string value) (date : string) :
  search_options_ok o date →
  o !! "--return" = Some VNone →
  ∃ p, prepare_payload (VDict o) = (Ok (VDict p), [])
       ∧ p !! "typeFlight" = Some (VStr "oneway")
       ∧ p !! "daysInDestinationFrom" = None
       ∧ p !! "daysInDestinationTo" = None.
Proof.
  intros (dt & nights & from & to & ch & _ & Hret & _ & ->)%search_options_ok_run
    Hnone.
  rewrite Hret in Hnone. injection Hnone as ->.
  eexists. split; [reflexivity|]. by split_and!.
Qed.

Lemma one_way_payload_sample :
  ∃ p, prepare_payload (VDict sample_options) = (Ok (VDict p), [])
       ∧ p !! "typeFlight" = Some (VStr "oneway")
       ∧ p !! "daysInDestinationFrom" = None
       ∧ p !! "daysInDestinationTo" = None.
Proof.
  apply (one_way_payload sample_options "2021-09-01"); [|reflexivity].
  split; vm_compute; eauto.
Defined.

(** C3: for valid round-trip options with return nights N (not None) the
    payload has typeFlight "round" and both daysInDestinationFrom and
    daysInDestinationTo equal to N. *)
Theorem round_trip_payload (o : gmap string value) (date : string) (nights : value) :
  search_options_ok o date →
  o !! "--return" = Some nights →
  nights ≠ VNone →
  ∃ p, prepare_payload (VDict o) = (Ok (VDict p), [])
       ∧ p !! "typeFlight" = Some (VStr "round")
       ∧ p !! "daysInDestinationFrom" = Some nights
       ∧ p !! "daysInDestinationTo" = Some nights.
Proof.
  intros (dt & nights' & from & to & ch & _ & Hret & _ & ->)%search_options_ok_run
    Hn Hsome.
  rewrite Hret in Hn. injection Hn as ->.
  eexists. split; [reflexivity|].
  assert (is_none nights = false) as -> by (by destruct nights).
  by split_and!.
Qed.

Lemma round_trip_payload_sample :
  ∃ p, prepare_payload (VDict sample_return_options) = (Ok (VDict p), [])
       ∧ p !! "typeFlight" = Some (VStr "round")
       ∧ p !! "daysInDestinationFrom" = Some (VStr "5")
       ∧ p !! "daysInDestinationTo" = Some (VStr "5").
Proof.
  apply (round_trip_payload sample_return_options "2021-09-01" (VStr "5"));
    [|reflexivity|discriminate].
  split; vm_compute; eauto.
Defined.




(** C5: the payload's sort field is "price" when the cheapest flag is True
    and "duration" otherwise. *)
Theorem sort_key (o : gmap string value) (date : string) (cheapest : value) :
  search_options_ok o date →
  o !! "--cheapest" = Some cheapest →
  ∃ p, prepare_payload (VDict o) = (Ok (VDict p), [])
       ∧ (cheapest = VBool true → p !! "sort" = Some (VStr "price"))
       ∧ (cheapest ≠ VBool true → p !! "sort" = Some (VStr "duration")).
Proof.
  intros (dt & nights & from & to & ch & _ & _ & Hch & ->)%search_options_ok_run Hc.
  rewrite Hch in Hc. injection Hc as ->.
  eexists. split; [reflexivity|]. split.
  - intros ->. by destruct (is_none nights).
  - intros Hne.
    assert (is_true cheapest = false) as -> by (by destruct cheapest as [|[]| | | | | |]).
    by destruct (is_none nights).
Qed.

Lemma sort_key_sample :
  ∃ p, prepare_payload (VDict sample_options) = (Ok (VDict p), [])
       ∧ (VBool true = VBool true → p !! "sort" = Some (VStr "price"))
       ∧ (VBool true ≠ VBool true → p !! "sort" = Some (VStr "duration")).
Proof.
  apply (sort_key sample_options "2021-09-01" (VBool true)); [|reflexivity].
  split; vm_compute; eauto.
Defined.

(** C6: the options {date 2021-09-01, from PRG, to LON, one-way, cheapest,
    bags 1} give exactly the payload v=3, dateFrom=dateTo="01/09/2021",
    flyFrom="PRG", to="LON", typeFlight="oneway", adults=1, limit=1,
    sort="price"; and every payload [prepare_payload] returns has v=3,
    adults=1 and limit=1. *)
Theorem scenario_payload :
  prepare_payload (VDict sample_options) = (Ok (VDict sample_payload), [])
  ∧ ∀ (search_options payload : value) (t : list event),
      prepare_payload search_options = (Ok payload, t) →
      ∃ p, payload = VDict p
           ∧ p !! "v" = Some (VInt 3)
           ∧ p !! "adults" = Some (VInt 1)
           ∧ p !! "limit" = Some (VInt 1).
Proof.
  split; [exact sample_payload_run|].
  intros so pv t H. unfold prepare_payload in H.
  repeat (apply bind_ok_inv in H as (? & ? & ? & _ & H & _)).
  case_bool_decide.
  - repeat (apply bind_ok_inv in H as (? & ? & ? & _ & H & _)).
    injection H as <- _. eexists. split; [reflexivity|]. by split_and!.
  - injection H as <- _. eexists. split; [reflexivity|]. by split_and!.
Qed.

Lemma scenario_payload_sample :
  ∃ p, VDict sample_payload = VDict p
       ∧ p !! "v" = Some (VInt 3)
       ∧ p !! "adults" = Some (VInt 1)
       ∧ p !! "limit" = Some (VInt 1).
Proof.
  apply (proj2 scenario_payload (VDict sample_options) _ []).
  exact (proj1 scenario_payload).
Defined.

(** C10: [convert_date] with a type other than 'object' or 'string' prints
    "Unsupported convertsion" and returns None without raising; with
    'object' or 'string', the only types [prepare_payload] passes, it
    prints nothing, and so [prepare_payload] never prints that line,
    whatever its input. *)
Theorem unsupported_conversion :
  (∀ date format type : value,
     type ≠ VStr "object" → type ≠ VStr "string" →
     convert_date date format type
     = (Ok VNone, [EPrint "Unsupported convertsion"]))
  ∧ (∀ date format : value,
       (convert_date date format (VStr "object")).2 = []
       ∧ (convert_date date format (VStr "string")).2 = [])
  ∧ ∀ search_options : value, (prepare_payload search_options).2 = [].
Proof.
  split; [|split; [by split|apply prepare_payload_silent]].
  intros date format type Ho Hs. unfold convert_date.
  assert (eq_str type "object" = false) as ->.
  { destruct type; try done. simpl. apply bool_decide_false. congruence. }
  assert (eq_str type "string" = false) as ->.
  { destruct type; try done. simpl. apply bool_decide_false. congruence. }
  reflexivity.
Qed.

Lemma unsupported_conversion_sample :
  convert_date (VStr "2021-07-04") (VStr "%Y-%m-%d") (VStr "date")
  = (Ok VNone, [EPrint "Unsupported convertsion"]).
Proof.
  apply (proj1 unsupported_conversion); discriminate.
Defined.

(** ** The two services *)

Lemma format1_error (arg : string) :
  format1 "Error while connecting to API. Response code: {}" arg
  = "Error while connecting to API. Response code: " +:+ arg.
Proof.
  change (format1 _ arg)
    with ("Error while connecting to API. Response code: " +:+ (arg +:+ "")).
  by rewrite append_empty_r.
Qed.

Lemma format1_booking_number (arg : string) :
  format1 "Your booking number is {}" arg = "Your booking number is " +:+ arg.
Proof.
  change (format1 _ arg) with ("Your booking number is " +:+ (arg +:+ "")).
  by rewrite append_empty_r.
Qed.

(** C1: [book_flight] builds its request from the first flight of the
    result: currency of the result, the given passengers, the bag count of
    the search options, the booking token of the first flight; it posts
    that request once and returns the decoded response. *)
Theorem booking_request (rt : runtime) (o fd first : gmap string value)
    (others : list value) (currency bags token pas : value) :
  fd !! "data" = Some (VList (VDict first :: others)) →
  fd !! "currency" = Some currency →
  first !! "booking_token" = Some token →
  o !! "--bags" = Some bags →
  ∃ req : gmap string value,
    book_flight rt (VDict o) (VDict fd) pas
    = (res_bind (requests_post rt booking_url (VDict req))
                (λ r, json_loads rt (text r)),
       [EPost booking_url (VDict req)])
    ∧ req !! "currency" = Some currency
    ∧ req !! "passengers" = Some pas
    ∧ req !! "bags" = Some bags
    ∧ req !! "booking_token" = Some token.
Proof.
  intros Hdata Hcur Htok Hbags. unfold book_flight.
  step_key Hdata.
  change (getitem_index (VList (VDict first :: others)) 0) with (Ok (VDict first)).
  rewrite bind_ok, (getitem_key_dict _ _ _ Hcur), bind_ok.
  step_key Hbags.
  step_key Htok.
  exists (dict_literal [("currency", currency); ("passengers", pas);
                         ("bags", bags); ("booking_token", token)]).
  split; [|by split_and!].
  unfold py_bind, http_post, lift, res_bind.
  by destruct (requests_post rt _ _).
Qed.

Lemma booking_request_sample :
  ∃ req : gmap string value,
    book_flight (sample_world 200 "confirmed") (VDict sample_options)
                sample_flights passengers
    = (res_bind (requests_post (sample_world 200 "confirmed") booking_url (VDict req))
                (λ r, json_loads (sample_world 200 "confirmed") (text r)),
       [EPost booking_url (VDict req)])
    ∧ req !! "currency" = Some (VStr "EUR")
    ∧ req !! "passengers" = Some passengers
    ∧ req !! "bags" = Some (VStr "1")
    ∧ req !! "booking_token" = Some (VStr "token").
Proof.
  eapply (booking_request (sample_world 200 "confirmed") sample_options);
    reflexivity.
Defined.

(** C7: on a status code other than 200 [get_flights] prints an error
    line that contains the code and returns None, without raising; on 200
    it returns the body decoded as JSON. *)
Theorem get_flights_status (rt : runtime) (payload : value) (r : response) :
  requests_get rt search_url payload = Ok r →
  (status_code r ≠ 200 →
   get_flights rt payload
   = (Ok VNone,
      [EGet search_url payload;
       EPrint ("Error while connecting to API. Response code: "
               +:+ pretty (status_code r))]))
  ∧ (status_code r = 200 →
     get_flights rt payload = (json_loads rt (text r), [EGet search_url payload])).
Proof.
  intros Hr. unfold get_flights, http_get. rewrite Hr. split; intros Hc.
  - unfold py_bind. by rewrite bool_decide_true, format1_error.
  - unfold py_bind. rewrite bool_decide_false by (by intros ?).
    unfold lift. by destruct (json_loads rt (text r)).
Qed.

Lemma get_flights_status_sample :
  get_flights (sample_world 500 "confirmed") (VDict sample_payload)
  = (Ok VNone,
     [EGet search_url (VDict sample_payload);
      EPrint "Error while connecting to API. Response code: 500"]).
Proof.
  apply (get_flights_status (sample_world 500 "confirmed") (VDict sample_payload)
           (Response 500 "flights")); [reflexivity|]. simpl. lia.
Defined.

(** ** The orchestrator *)

Lemma first_flight_field_run (rt : runtime) (fd first : gmap string value)
    (others : list value) (key : string) (v : value) :
  fd !! "data" = Some (VList (VDict first :: others)) →
  first !! key = Some v →
  first_flight_field (VDict fd) key = (Ok v, []).
Proof.
  intros Hdata Hkey. unfold first_flight_field.
  step_key Hdata.
  change (getitem_index (VList (VDict first :: others)) 0) with (Ok (VDict first)).
  by rewrite bind_ok, (getitem_key_dict _ _ _ Hkey).
Qed.

Lemma eq_str_true (v : value) (s : string) : eq_str v s = true ↔ v = VStr s.
Proof.
  destruct v; simpl; try (split; [done|discriminate]).
  rewrite bool_decide_eq_true. split; congruence.
Qed.

(** C8: after a search and a booking request that both gave well-formed
    answers, the orchestrator prints the currency, the price, the two
    cities and the booking reference exactly when the booking status is
    "confirmed"; for any other status it prints "Could not book the
    flight"; in both cases it ends normally. *)
Theorem booking_outcome (rt : runtime) (search_options payload : value)
    (fd booking : gmap string value)
    (status currency price city_from city_to pnr : value)
    (t1 t2 : list event) :
  prepare_payload search_options = (Ok payload, []) →
  get_flights rt payload = (Ok (VDict fd), t1) →
  book_flight rt search_options (VDict fd) passengers = (Ok (VDict booking), t2) →
  booking !! "status" = Some status →
  (status = VStr "confirmed" →
   flight_fields fd currency price city_from city_to
   ∧ booking !! "pnr" = Some pnr) →
  ∃ report : list event,
    search_and_book rt search_options = (Ok VNone, t1 ++ t2 ++ report)
    ∧ (status = VStr "confirmed" →
       report = confirmation_lines rt currency price city_from city_to pnr)
    ∧ (status ≠ VStr "confirmed" →
       report = [EPrint "Could not book the flight"])
    ∧ (report = confirmation_lines rt currency price city_from city_to pnr
       ↔ status = VStr "confirmed").
Proof.
  intros Hpay Hget Hbook Hstatus Hfields.
  destruct (eq_str status "confirmed") eqn:Hconf.
  - apply eq_str_true in Hconf.
    destruct (Hfields Hconf) as [[Hcur (first & others & Hdata & Hp & Hf & Ht)] Hpnr].
    exists (confirmation_lines rt currency price city_from city_to pnr).
    split_and!; [|done|done|done].
    unfold search_and_book.
    eapply bind_silent; [exact Hpay|]. eapply bind_run; [exact Hget|].
    eapply bind_run; [exact Hbook|].
    step_key Hstatus.
    rewrite (proj2 (eq_str_true _ _) Hconf).
    step_key Hcur.
    rewrite (first_flight_field_run rt fd first others _ _ Hdata Hp), bind_silent_eq.
    rewrite (first_flight_field_run rt fd first others _ _ Hdata Hf), bind_silent_eq.
    rewrite (first_flight_field_run rt fd first others _ _ Hdata Ht), bind_silent_eq.
    unfold confirmation_lines. do 5 apply bind_print.
    rewrite (getitem_key_dict _ _ _ Hpnr), bind_ok, format1_booking_number.
    by apply bind_print.
  - assert (status ≠ VStr "confirmed") as Hne.
    { intros Hs. apply eq_str_true in Hs. congruence. }
    exists [EPrint "Could not book the flight"]. split_and!; [|done|done|].
    + unfold search_and_book.
      eapply bind_silent; [exact Hpay|]. eapply bind_run; [exact Hget|].
      eapply bind_run; [exact Hbook|].
      rewrite (getitem_key_dict _ _ _ Hstatus), bind_ok, Hconf. reflexivity.
    + split; [discriminate|done].
Qed.

Lemma booking_outcome_sample :
  ∃ report : list event,
    search_and_book (sample_world 200 "confirmed") (VDict sample_options)
    = (Ok VNone,
       [EGet search_url (VDict sample_payload)]
       ++ [EPost booking_url (VDict (dict_literal [
             ("currency", VStr "EUR");
             ("passengers", passengers);
             ("bags", VStr "1");
             ("booking_token", VStr "token")]))]
       ++ report)
    ∧ (VStr "confirmed" = VStr "confirmed" →
       report = confirmation_lines (sample_world 200 "confirmed") (VStr "EUR")
                  (VInt 100) (VStr "Prague") (VStr "London") (VStr "ABC123"))
    ∧ (VStr "confirmed" ≠ VStr "confirmed" →
       report = [EPrint "Could not book the flight"])
    ∧ (report = confirmation_lines (sample_world 200 "confirmed") (VStr "EUR")
                  (VInt 100) (VStr "Prague") (VStr "London") (VStr "ABC123")
       ↔ VStr "confirmed" = VStr "confirmed").
Proof.
  eapply (booking_outcome (sample_world 200 "confirmed") (VDict sample_options)
            (VDict sample_payload)).
  - by vm_compute.
  - by vm_compute.
  - by vm_compute.
  - by vm_compute.
  - intros _. split; [split|]; [by vm_compute| |by vm_compute].
    eexists _, _. split_and!; by vm_compute.
Defined.

Lemma get_flights_no_post (rt : runtime) (payload : value) :
  Forall (λ e, is_post e = false) (get_flights rt payload).2.
Proof.
  unfold get_flights, http_get, py_bind, lift, print, py_ret.
  destruct (requests_get rt search_url payload) as [r|e]; [|by repeat constructor].
  case_bool_decide; [by repeat constructor|].
  destruct (json_loads rt (text r)); by repeat constructor.
Qed.

(** C9 (as the code has it): when the search yields None, or a result
    whose data list is empty, the booking step raises at its first
    subscript and the run ends there, before any booking request: a
    TypeError for None (None is not subscriptable), an IndexError for the
    empty list. *)
Theorem absent_or_empty_result (rt : runtime) (search_options payload flights : value)
    (t : list event) :
  prepare_payload search_options = (Ok payload, []) →
  get_flights rt payload = (Ok flights, t) →
  Forall (λ e, is_post e = false) t
  ∧ (flights = VNone → search_and_book rt search_options = (Raise TypeError, t))
  ∧ (∀ fd : gmap string value,
       flights = VDict fd → fd !! "data" = Some (VList []) →
       search_and_book rt search_options = (Raise IndexError, t)).
Proof.
  intros Hpay Hget. split_and!.
  - pose proof (get_flights_no_post rt payload) as H. by rewrite Hget in H.
  - intros ->. unfold search_and_book.
    eapply bind_silent; [exact Hpay|].
    eapply bind_run_silent; [exact Hget|]. reflexivity.
  - intros fd -> Hdata. unfold search_and_book.
    eapply bind_silent; [exact Hpay|].
    eapply bind_run_silent; [exact Hget|]. unfold book_flight.
    rewrite (getitem_key_dict _ _ _ Hdata), bind_ok. reflexivity.
Qed.

Lemma absent_or_empty_result_sample :
  search_and_book (sample_world 500 "confirmed") (VDict sample_options)
  = (Raise TypeError,
     [EGet search_url (VDict sample_payload);
      EPrint "Error while connecting to API. Response code: 500"]).
Proof.
  refine (proj1 (proj2 (absent_or_empty_result (sample_world 500 "confirmed")
            (VDict sample_options) (VDict sample_payload) VNone _ _ _)) _);
    by vm_compute.
Defined.

Lemma sample_get_flights_500 :
  get_flights (sample_world 500 "confirmed") (VDict sample_payload)
  = (Ok VNone,
     [EGet search_url (VDict sample_payload);
      EPrint "Error while connecting to API. Response code: 500"]).
Proof. by vm_compute. Qed.

Lemma sample_run_500 :
  search_and_book (sample_world 500 "confirmed") (VDict sample_options)
  = (Raise TypeError,
     [EGet search_url (VDict sample_payload);
      EPrint "Error while connecting to API. Response code: 500"]).
Proof. by vm_compute. Qed.

(** C9 as stated fails: with a search that yields None the run does not
    end in a lookup or index error (it ends in a TypeError). *)
Lemma absent_result_not_lookup_error :
  ¬ ∀ (rt : runtime) (search_options payload : value) (t : list event),
      prepare_payload search_options = (Ok payload, []) →
      get_flights rt payload = (Ok VNone, t) →
      ∃ (e : exn) (t' : list event),
        search_and_book rt search_options = (Raise e, t')
        ∧ is_lookup_error e = true.
Proof.
  intros H.
  destruct (H (sample_world 500 "confirmed") (VDict sample_options)
              (VDict sample_payload) _ sample_payload_run
              sample_get_flights_500) as (e & t' & Hrun & He).
  rewrite sample_run_500 in Hrun. injection Hrun as <- _. discriminate.
Qed.

(** * Further properties of the script *)

(** ** What the directive groups match, exactly *)

Ltac digit_cases v :=
  let H := fresh in
  assert (v = 0 ∨ v = 1 ∨ v = 2 ∨ v = 3 ∨ v = 4 ∨ v = 5 ∨ v = 6 ∨ v = 7
          ∨ v = 8 ∨ v = 9) as H by lia;
  decompose [or] H; clear H; subst v.

Lemma month_regex_exact c1 c2 rest a b :
  digit_val c1 = Some a → digit_val c2 = Some b →
  directive_regex Dirm (String c1 (String c2 rest))
  = (if bool_decide (1 ≤ 10 * a + b ≤ 12) then [(10 * a + b, rest)] else [])
    ++ (if bool_decide (1 ≤ a) then [(a, String c2 rest)] else []).
Proof.
  intros [Ha ->]%digit_val_inv [Hb ->]%digit_val_inv.
  digit_cases a; digit_cases b; reflexivity.
Qed.

Lemma day_regex_exact c1 c2 rest a b :
  digit_val c1 = Some a → digit_val c2 = Some b →
  directive_regex Dird (String c1 (String c2 rest))
  = (if bool_decide (1 ≤ 10 * a + b ≤ 31) then [(10 * a + b, rest)] else [])
    ++ (if bool_decide (1 ≤ a) then [(a, String c2 rest)] else []).
Proof.
  intros [Ha ->]%digit_val_inv [Hb ->]%digit_val_inv.
  digit_cases a; digit_cases b; reflexivity.
Qed.

(** A digit is not a hyphen. *)
Lemma rx_match_hyphen_digit c v items s fs :
  digit_val c = Some v → rx_match (Lit "-" :: items) (String c s) fs = None.
Proof.
  intros [Hv ->]%digit_val_inv. digit_cases v; reflexivity.
Qed.

(** ** Dates in and out *)

Lemma two_digits (n : Z) :
  0 ≤ n ≤ 99 → ∃ a b, 0 ≤ a ≤ 9 ∧ 0 ≤ b ≤ 9 ∧ n = 10 * a + b.
Proof.
  intros Hn. exists (n / 10), (n mod 10).
  split_and!; try (apply Z.div_mod; lia);
    Z.div_mod_to_equations; lia.
Qed.

Lemma four_digits (n : Z) :
  0 ≤ n ≤ 9999 →
  ∃ a b c d, 0 ≤ a ≤ 9 ∧ 0 ≤ b ≤ 9 ∧ 0 ≤ c ≤ 9 ∧ 0 ≤ d ≤ 9
             ∧ n = 1000 * a + 100 * b + (10 * c + d).
Proof.
  intros Hn. exists (n / 1000), (n / 100 mod 10), (n / 10 mod 10), (n mod 10).
  split_and!; Z.div_mod_to_equations; lia.
Qed.

(** The digits of a date the [datetime] constructor accepts. *)
Lemma valid_date_digits (dt : datetime) :
  valid_date (year dt) (month dt) (day dt) = true →
  ∃ a b c d e f g h,
    (0 ≤ a ≤ 9 ∧ 0 ≤ b ≤ 9 ∧ 0 ≤ c ≤ 9 ∧ 0 ≤ d ≤ 9)
    ∧ (0 ≤ e ≤ 9 ∧ 0 ≤ f ≤ 9 ∧ 0 ≤ g ≤ 9 ∧ 0 ≤ h ≤ 9)
    ∧ dt = Datetime (1000 * a + 100 * b + (10 * c + d)) (10 * e + f) (10 * g + h).
Proof.
  destruct dt as [y m d]. simpl. unfold valid_date.
  intros [[Hy Hm]%andb_prop Hd]%andb_prop.
  apply bool_decide_eq_true in Hy, Hm, Hd.
  pose proof (days_in_month_le y m).
  destruct (four_digits y) as (a & b & c & d' & ? & ? & ? & ? & ->); [lia|].
  destruct (two_digits m) as (e & f & ? & ? & ->); [lia|].
  destruct (two_digits d) as (g & h & ? & ? & ->); [lia|].
  exists a, b, c, d', e, f, g, h. split_and!; (lia || reflexivity).
Qed.

Lemma strftime_ymd (dt : datetime) :
  strftime (VDatetime dt) (VStr "%Y-%m-%d") = Ok (VStr (render_ymd dt)).
Proof.
  unfold strftime, render_ymd. rewrite parse_format_ymd. simpl.
  by rewrite append_empty_r.
Qed.

Lemma strptime_render_ymd (dt : datetime) :
  valid_date (year dt) (month dt) (day dt) = true →
  1000 ≤ year dt →
  strptime (VStr (render_ymd dt)) (VStr "%Y-%m-%d") = Ok (VDatetime dt).
Proof.
  intros Hv Hy1000. apply strptime_iso.
  destruct (valid_date_digits dt Hv)
    as (a & b & c & d & e & f & g & h & (?&?&?&?) & (?&?&?&?) & ->).
  unfold render_ymd. simpl in Hy1000. simpl year; simpl month; simpl day.
  rewrite !pad0_2_digits, pretty_4_digits by (done || lia).
  unfold iso_date. cbv [String.append String.list_ascii_of_string].
  rewrite !digit_val_char by done. simpl in Hv. cbv zeta. rewrite Hv.
  by rewrite bool_decide_true.
Qed.

Lemma strptime_render_dmy (dt : datetime) :
  valid_date (year dt) (month dt) (day dt) = true →
  1000 ≤ year dt →
  strptime (VStr (render_dmy dt)) (VStr "%d/%m/%Y") = Ok (VDatetime dt).
Proof.
  intros Hv Hy1000.
  destruct (valid_date_digits dt Hv)
    as (a & b & c & d & e & f & g & h & (?&?&?&?) & (?&?&?&?) & ->).
  simpl in Hv, Hy1000. pose proof Hv as Hv'. unfold valid_date in Hv'.
  apply andb_prop in Hv' as [[Hy Hm]%andb_prop Hday].
  apply bool_decide_eq_true in Hy, Hm, Hday.
  pose proof (days_in_month_le (1000 * a + 100 * b + (10 * c + d)) (10 * e + f)).
  unfold render_dmy. simpl year; simpl month; simpl day.
  rewrite !pad0_2_digits, pretty_4_digits by (done || lia). cbv [String.append].
  rewrite strptime_dmy_eq by solve_ascii.
  destruct (day_regex (digit_char g) (digit_char h)
              (String "/" (String (digit_char e) (String (digit_char f)
                (String "/" (String (digit_char a) (String (digit_char b)
                  (String (digit_char c) (String (digit_char d) EmptyString))))))))
              g h) as [od Hod]; [by apply digit_val_char..|lia|].
  destruct (month_regex (digit_char e) (digit_char f)
              (String "/" (String (digit_char a) (String (digit_char b)
                  (String (digit_char c) (String (digit_char d) EmptyString)))))
              e f) as [om Hom]; [by apply digit_val_char..|lia|].
  erewrite rx_match_dir; [|exact Hod|].
  2:{ rewrite rx_match_lit. eapply rx_match_dir; [exact Hom|].
      rewrite rx_match_lit. eapply rx_match_dir; [|reflexivity].
      apply year_regex; by apply digit_val_char. }
  unfold datetime_of_match. simpl. by rewrite Hv.
Qed.

(** X4: from the year 1000 on, formatting a date and parsing the text
    back with the same format gives the date again, for both formats the
    script uses.  (Before 1000 the year is written in fewer than the four
    digits %Y reads.) *)
Theorem convert_date_round_trip (dt : datetime) :
  valid_date (year dt) (month dt) (day dt) = true →
  1000 ≤ year dt →
  (∃ s, convert_date (VDatetime dt) (VStr "%d/%m/%Y") (VStr "string")
        = (Ok (VStr s), [])
        ∧ convert_date (VStr s) (VStr "%d/%m/%Y") (VStr "object")
          = (Ok (VDatetime dt), []))
  ∧ (∃ s, convert_date (VDatetime dt) (VStr "%Y-%m-%d") (VStr "string")
          = (Ok (VStr s), [])
          ∧ convert_date (VStr s) (VStr "%Y-%m-%d") (VStr "object")
            = (Ok (VDatetime dt), [])).
Proof.
  intros Hv Hy. split.
  - exists (render_dmy dt).
    by rewrite convert_date_string, convert_date_object, strftime_dmy,
      strptime_render_dmy.
  - exists (render_ymd dt).
    by rewrite convert_date_string, convert_date_object, strftime_ymd,
      strptime_render_ymd.
Qed.

Lemma convert_date_round_trip_sample :
  (∃ s, convert_date (VDatetime (Datetime 2020 2 29)) (VStr "%d/%m/%Y") (VStr "string")
        = (Ok (VStr s), [])
        ∧ convert_date (VStr s) (VStr "%d/%m/%Y") (VStr "object")
          = (Ok (VDatetime (Datetime 2020 2 29)), []))
  ∧ (∃ s, convert_date (VDatetime (Datetime 2020 2 29)) (VStr "%Y-%m-%d") (VStr "string")
          = (Ok (VStr s), [])
          ∧ convert_date (VStr s) (VStr "%Y-%m-%d") (VStr "object")
            = (Ok (VDatetime (Datetime 2020 2 29)), [])).
Proof.
  apply (convert_date_round_trip (Datetime 2020 2 29)); [reflexivity|].
  simpl. lia.
Defined.

Lemma month_regex_single c rest a :
  digit_val c = Some a → 1 ≤ a →
  directive_regex Dirm (String c (String "-" rest)) = [(a, String "-" rest)].
Proof.
  intros [Ha ->]%digit_val_inv ?. digit_cases a; (lia || reflexivity).
Qed.

Lemma day_regex_single c a :
  digit_val c = Some a → 1 ≤ a →
  directive_regex Dird (String c EmptyString) = [(a, EmptyString)].
Proof.
  intros [Ha ->]%digit_val_inv ?. digit_cases a; (lia || reflexivity).
Qed.

Lemma pad0_2_digit (n : Z) :
  0 ≤ n ≤ 9 → pad0 2 n = String "0" (String (digit_char n) EmptyString).
Proof. intros Hn. apply (pad0_2_digits 0 n); [lia|done]. Qed.

(** X5: [strptime] also takes a month and a day written in one digit
    ("2021-7-4"); from the year 1000 on, the date comes out of [strftime]
    with the day and the month zero padded. *)
Theorem unpadded_date_accepted (c1 c2 c3 c4 cm cd : ascii) (a b c d m n : Z) :
  digit_val c1 = Some a → digit_val c2 = Some b →
  digit_val c3 = Some c → digit_val c4 = Some d →
  digit_val cm = Some m → digit_val cd = Some n →
  valid_date (1000 * a + 100 * b + (10 * c + d)) m n = true →
  let s := String c1 (String c2 (String c3 (String c4 (String "-"
             (String cm (String "-" (String cd EmptyString))))))) in
  let dt := Datetime (1000 * a + 100 * b + (10 * c + d)) m n in
  convert_date (VStr s) (VStr "%Y-%m-%d") (VStr "object") = (Ok (VDatetime dt), [])
  ∧ (1 ≤ a →
     convert_date (VDatetime dt) (VStr "%d/%m/%Y") (VStr "string")
     = (Ok (VStr (String "0" (String cd (String "/" (String "0" (String cm
          (String "/" (String c1 (String c2 (String c3 (String c4
          EmptyString))))))))))), [])).
Proof.
  intros Ha Hb Hc Hd Hm Hn Hv s dt. subst s dt.
  pose proof Hv as Hv'. unfold valid_date in Hv'.
  apply andb_prop in Hv' as [[Hy Hmo]%andb_prop Hday].
  apply bool_decide_eq_true in Hy, Hmo, Hday.
  split.
  - rewrite convert_date_object, strptime_ymd_eq by solve_ascii.
    erewrite rx_match_dir; [|by apply year_regex|].
    2:{ rewrite rx_match_lit.
        eapply rx_match_dir; [apply (month_regex_single _ _ _ Hm); lia|].
        rewrite rx_match_lit.
        eapply rx_match_dir; [apply (day_regex_single _ _ Hn); lia|]. reflexivity. }
    unfold datetime_of_match. simpl. by rewrite Hv.
  - intros Ha1. rewrite convert_date_string, strftime_dmy. unfold render_dmy.
    simpl year; simpl month; simpl day.
    apply digit_val_inv in Ha as [? ->], Hb as [? ->], Hc as [? ->], Hd as [? ->],
      Hm as [? ->], Hn as [? ->].
    rewrite (pad0_2_digit m), (pad0_2_digit n), pretty_4_digits by (done || lia).
    reflexivity.
Qed.

Lemma unpadded_date_accepted_sample :
  convert_date (VStr "2021-7-4") (VStr "%Y-%m-%d") (VStr "object")
  = (Ok (VDatetime (Datetime 2021 7 4)), [])
  ∧ (1 ≤ 2 →
     convert_date (VDatetime (Datetime 2021 7 4)) (VStr "%d/%m/%Y") (VStr "string")
     = (Ok (VStr "04/07/2021"), [])).
Proof.
  apply (unpadded_date_accepted "2" "0" "2" "1" "7" "4" 2 0 2 1 7 4); reflexivity.
Defined.

(** ** Dates that do not exist *)

Lemma iso_shape_inv (s : string) :
  iso_shape s = true →
  ∃ c1 c2 c3 c4 c5 c6 c7 c8 a b c d e f g h,
    s = String c1 (String c2 (String c3 (String c4 (String "-"
          (String c5 (String c6 (String "-" (String c7 (String c8
          EmptyString)))))))))
    ∧ digit_val c1 = Some a ∧ digit_val c2 = Some b
    ∧ digit_val c3 = Some c ∧ digit_val c4 = Some d
    ∧ digit_val c5 = Some e ∧ digit_val c6 = Some f
    ∧ digit_val c7 = Some g ∧ digit_val c8 = Some h.
Proof.
  unfold iso_shape. intros H.
  do 10 (destruct s as [|? s]; [done|]). destruct s; [|done].
  simpl in H. apply andb_prop in H as [Hd Hh].
  apply bool_decide_eq_true in Hh as [-> ->].
  repeat (apply andb_prop in Hd as [[? ?]%bool_decide_eq_true Hd]).
  repeat eexists; eauto.
Qed.

Lemma rx_match_dir_eq d items s fs :
  rx_match (Dir d :: items) s fs
  = first_some (λ m, rx_match items m.2 (set_field d m.1 fs)) (directive_regex d s).
Proof. reflexivity. Qed.

Lemma first_some_cons {A B} (f : A → option B) (a : A) (l : list A) :
  first_some f (a :: l)
  = match f a with Some b => Some b | None => first_some f l end.
Proof. reflexivity. Qed.

Lemma first_some_app {A B} (f : A → option B) (l1 l2 : list A) :
  first_some f (l1 ++ l2)
  = match first_some f l1 with Some b => Some b | None => first_some f l2 end.
Proof.
  induction l1 as [|a l1 IH]; [done|]. simpl. by destruct (f a).
Qed.

(** The alternative that reads one digit of a two-digit group leaves a
    digit where the format has a hyphen, and is given up. *)
Lemma first_some_hyphen_digit c v v0 (cond : bool) items rest
    (F : Z * string → fields) :
  digit_val c = Some v →
  first_some (λ m, rx_match (Lit "-" :: items) m.2 (F m))
    (if cond then [(v0, String c rest)] else []) = None.
Proof.
  intros Hc. destruct cond; [|done].
  rewrite first_some_cons. cbn [snd].
  by rewrite (rx_match_hyphen_digit _ _ _ _ _ Hc).
Qed.

(** What the regular expression of %Y-%m-%d finds in a string of the
    shape dddd-dd-dd. *)
Lemma rx_match_iso_shape c1 c2 c3 c4 c5 c6 c7 c8 a b c d e f g h :
  digit_val c1 = Some a → digit_val c2 = Some b →
  digit_val c3 = Some c → digit_val c4 = Some d →
  digit_val c5 = Some e → digit_val c6 = Some f →
  digit_val c7 = Some g → digit_val c8 = Some h →
  rx_match [Dir DirY; Lit "-"; Dir Dirm; Lit "-"; Dir Dird]
    (String c1 (String c2 (String c3 (String c4 (String "-"
       (String c5 (String c6 (String "-" (String c7 (String c8
       EmptyString)))))))))) no_fields
  = let y := 1000 * a + 100 * b + (10 * c + d) in
    if bool_decide (1 ≤ 10 * e + f ≤ 12) then
      if bool_decide (1 ≤ 10 * g + h ≤ 31)
      then Some (Fields (Some y) (10 * e + f) (10 * g + h), EmptyString)
      else if bool_decide (1 ≤ g)
           then Some (Fields (Some y) (10 * e + f) g, String c8 EmptyString)
           else None
    else None.
Proof.
  intros Ha Hb Hc Hd He Hf Hg Hh.
  rewrite rx_match_dir_eq, (year_regex _ _ _ _ _ _ _ _ _ Ha Hb Hc Hd).
  rewrite first_some_cons. cbn [fst snd]. rewrite rx_match_lit.
  rewrite rx_match_dir_eq, (month_regex_exact _ _ _ _ _ He Hf).
  rewrite first_some_app, (first_some_hyphen_digit _ _ _ _ _ _ _ Hf).
  cbv zeta. case_bool_decide as Hm; [|reflexivity].
  rewrite first_some_cons. cbn [fst snd]. rewrite rx_match_lit.
  rewrite rx_match_dir_eq, (day_regex_exact _ _ _ _ _ Hg Hh).
  repeat case_bool_decide; reflexivity.
Qed.

Lemma strptime_impossible_date (s : string) :
  iso_shape s = true → iso_date s = None →
  strptime (VStr s) (VStr "%Y-%m-%d") = Raise ValueError.
Proof.
  intros (c1&c2&c3&c4&c5&c6&c7&c8&a&b&c&d&e&f&g&h&->&Ha&Hb&Hc&Hd&He&Hf&Hg&Hh)
    %iso_shape_inv Hnone.
  unfold iso_date in Hnone. simpl in Hnone.
  rewrite Ha, Hb, Hc, Hd, He, Hf, Hg, Hh in Hnone.
  destruct (valid_date _ _ _) eqn:Hv in Hnone; [done|].
  rewrite strptime_ymd_eq by solve_ascii.
  rewrite (rx_match_iso_shape _ _ _ _ _ _ _ _ _ _ _ _ _ _ _ _ Ha Hb Hc Hd He Hf Hg Hh).
  cbv zeta. case_bool_decide; [|reflexivity].
  case_bool_decide; [|case_bool_decide; reflexivity].
  unfold datetime_of_match. simpl. by rewrite Hv.
Qed.

(** ** The payload, for any input *)

Lemma lift_ok_inv {A} (r : result A) (a : A) (t : list event) :
  lift r = (Ok a, t) → r = Ok a ∧ t = [].
Proof. unfold lift. by intros [= -> <-]. Qed.

Lemma strptime_ok_inv (date format v : value) :
  strptime date format = Ok v →
  ∃ dt, v = VDatetime dt ∧ valid_date (year dt) (month dt) (day dt) = true.
Proof.
  unfold strptime. destruct date; try done. destruct format; try done.
  destruct (negb _ || _ || _); [done|]. destruct (negb _); [done|].
  unfold datetime_of_match.
  destruct (rx_match _ _ _) as [[fs [|? ?]]|]; try done.
  destruct (valid_date _ _ _) eqn:Hv; [|done]. intros [= <-]. eauto.
Qed.

Lemma render_dmy_length (dt : datetime) :
  valid_date (year dt) (month dt) (day dt) = true →
  1000 ≤ year dt →
  String.length (render_dmy dt) = 10%nat.
Proof.
  intros Hv Hy.
  destruct (valid_date_digits dt Hv)
    as (a & b & c & d & e & f & g & h & (?&?&?&?) & (?&?&?&?) & ->).
  unfold render_dmy. simpl in Hy. simpl year; simpl month; simpl day.
  by rewrite !pad0_2_digits, pretty_4_digits by (done || lia).
Qed.

(** X6: a --date of the shape dddd-dd-dd that names no day of the
    calendar (2021-02-30, 2021-13-01, 0000-01-01) ends the run with a
    ValueError before anything is sent or printed. *)
Theorem impossible_date_rejected (rt : runtime) (o : gmap string value) (s : string) :
  o !! "--date" = Some (VStr s) →
  iso_shape s = true →
  iso_date s = None →
  prepare_payload (VDict o) = (Raise ValueError, [])
  ∧ search_and_book rt (VDict o) = (Raise ValueError, []).
Proof.
  intros Hdate Hshape Hnone.
  assert (prepare_payload (VDict o) = (Raise ValueError, [])) as Hp.
  { unfold prepare_payload. step_key Hdate.
    by rewrite convert_date_object, (strptime_impossible_date _ Hshape Hnone). }
  split; [done|]. unfold search_and_book. by rewrite Hp.
Qed.

Lemma impossible_date_rejected_sample :
  prepare_payload (VDict sample_impossible_options) = (Raise ValueError, [])
  ∧ search_and_book (sample_world 200 "confirmed") (VDict sample_impossible_options)
    = (Raise ValueError, []).
Proof.
  apply (impossible_date_rejected (sample_world 200 "confirmed")
           sample_impossible_options "2021-02-30"); reflexivity.
Defined.

(** X3: whatever the input, a payload that [prepare_payload] returns has
    the same text in dateFrom and dateTo: the calendar day that [strptime]
    read from the --date option, written as the day and the month in two
    digits and the year in decimal, with slashes; from the year 1000 on
    these are the ten characters dd/mm/yyyy. *)
Theorem payload_dates (search_options payload : value) (t : list event) :
  prepare_payload search_options = (Ok payload, t) →
  ∃ (p : gmap string value) (date : value) (dt : datetime),
    payload = VDict p
    ∧ getitem_key search_options "--date" = Ok date
    ∧ strptime date (VStr "%Y-%m-%d") = Ok (VDatetime dt)
    ∧ valid_date (year dt) (month dt) (day dt) = true
    ∧ p !! "dateFrom" = Some (VStr (render_dmy dt))
    ∧ p !! "dateTo" = Some (VStr (render_dmy dt))
    ∧ (1000 ≤ year dt → String.length (render_dmy dt) = 10%nat).
Proof.
  intros H. unfold prepare_payload in H.
  apply bind_ok_inv in H as (date & ? & ? & [Hdate _]%lift_ok_inv & H & _).
  apply bind_ok_inv in H as (dateFrom & ? & ? & Hparse & H & _).
  rewrite convert_date_object in Hparse. apply lift_ok_inv in Hparse as [Hparse _].
  destruct (strptime_ok_inv _ _ _ Hparse) as (dt & -> & Hv).
  apply bind_ok_inv in H as (nights & ? & ? & _ & H & _).
  rewrite convert_date_string, strftime_dmy, !bind_ok in H.
  repeat (apply bind_ok_inv in H as (? & ? & ? & _ & H & _)).
  assert (∃ p, payload = VDict p ∧ p !! "dateFrom" = Some (VStr (render_dmy dt))
               ∧ p !! "dateTo" = Some (VStr (render_dmy dt))) as (p & -> & ? & ?).
  { case_bool_decide.
    - repeat (apply bind_ok_inv in H as (? & ? & ? & _ & H & _)).
      injection H as <- _. eexists. by split_and!.
    - injection H as <- _. eexists. by split_and!. }
  exists p, date, dt. split_and!; try done. by apply render_dmy_length.
Qed.

Lemma payload_dates_sample :
  ∃ (p : gmap string value) (date : value) (dt : datetime),
    VDict sample_payload = VDict p
    ∧ getitem_key (VDict sample_options) "--date" = Ok date
    ∧ strptime date (VStr "%Y-%m-%d") = Ok (VDatetime dt)
    ∧ valid_date (year dt) (month dt) (day dt) = true
    ∧ p !! "dateFrom" = Some (VStr (render_dmy dt))
    ∧ p !! "dateTo" = Some (VStr (render_dmy dt))
    ∧ (1000 ≤ year dt → String.length (render_dmy dt) = 10%nat).
Proof.
  apply (payload_dates (VDict sample_options) (VDict sample_payload) []).
  by vm_compute.
Defined.

(** X2: whatever the input, a payload that [prepare_payload] returns is
    one of two shapes, chosen by the --return option alone: nine keys with
    typeFlight "oneway" when it is None, the same nine and the two
    daysInDestination keys, both holding the option's value, with
    typeFlight "round" otherwise.  flyFrom and to are the --from and --to
    options and sort is decided by --cheapest. *)
Theorem payload_shape (search_options payload : value) (t : list event) :
  prepare_payload search_options = (Ok payload, t) →
  ∃ (p : gmap string value) (nights from to cheapest : value),
    payload = VDict p
    ∧ getitem_key search_options "--return" = Ok nights
    ∧ getitem_key search_options "--from" = Ok from
    ∧ getitem_key search_options "--to" = Ok to
    ∧ getitem_key search_options "--cheapest" = Ok cheapest
    ∧ p !! "flyFrom" = Some from
    ∧ p !! "to" = Some to
    ∧ p !! "sort" = Some (VStr (if is_true cheapest then "price" else "duration"))
    ∧ if is_none nights
      then p !! "typeFlight" = Some (VStr "oneway") ∧ dom p = one_way_keys
      else p !! "typeFlight" = Some (VStr "round")
           ∧ p !! "daysInDestinationFrom" = Some nights
           ∧ p !! "daysInDestinationTo" = Some nights
           ∧ dom p = round_trip_keys.
Proof.
  intros H. unfold prepare_payload in H.
  apply bind_ok_inv in H as (date & ? & ? & _ & H & _).
  apply bind_ok_inv in H as (dateFrom & ? & ? & _ & H & _).
  apply bind_ok_inv in H as (nights & ? & ? & [Hn _]%lift_ok_inv & H & _).
  apply bind_ok_inv in H as (df & ? & ? & _ & H & _).
  apply bind_ok_inv in H as (dto & ? & ? & _ & H & _).
  apply bind_ok_inv in H as (from & ? & ? & [Hfrom _]%lift_ok_inv & H & _).
  apply bind_ok_inv in H as (to & ? & ? & [Hto _]%lift_ok_inv & H & _).
  apply bind_ok_inv in H as (ch & ? & ? & [Hch _]%lift_ok_inv & H & _).
  destruct (is_none nights) eqn:Hnone; simpl negb in H; cbv iota in H.
  - rewrite bool_decide_false in H by done. injection H as <- _.
    eexists _, nights, from, to, ch. rewrite Hnone.
    split_and!; try done; by vm_compute.
  - rewrite bool_decide_true in H by done. rewrite Hn, bind_ok in H.
    unfold getitem_key at 1 in H. rewrite lookup_insert_eq, bind_ok in H.
    injection H as <- _.
    eexists _, nights, from, to, ch. rewrite Hnone.
    split_and!; try done; by vm_compute.
Qed.

Lemma payload_shape_sample :
  ∃ (p : gmap string value) (nights from to cheapest : value),
    VDict sample_payload = VDict p
    ∧ getitem_key (VDict sample_options) "--return" = Ok nights
    ∧ getitem_key (VDict sample_options) "--from" = Ok from
    ∧ getitem_key (VDict sample_options) "--to" = Ok to
    ∧ getitem_key (VDict sample_options) "--cheapest" = Ok cheapest
    ∧ p !! "flyFrom" = Some from
    ∧ p !! "to" = Some to
    ∧ p !! "sort" = Some (VStr (if is_true cheapest then "price" else "duration"))
    ∧ if is_none nights
      then p !! "typeFlight" = Some (VStr "oneway") ∧ dom p = one_way_keys
      else p !! "typeFlight" = Some (VStr "round")
           ∧ p !! "daysInDestinationFrom" = Some nights
           ∧ p !! "daysInDestinationTo" = Some nights
           ∧ dom p = round_trip_keys.
Proof.
  apply (payload_shape (VDict sample_options) (VDict sample_payload) []).
  by vm_compute.
Defined.

(** X1: the payload is built from five options only: --date, --return,
    --from, --to and --cheapest.  Two option sets that agree on these give
    the same outcome, so --fastest, --one-way and --bags play no part in
    the search. *)
Theorem prepare_payload_reads (o1 o2 : gmap string value) :
  o1 !! "--date" = o2 !! "--date" →
  o1 !! "--return" = o2 !! "--return" →
  o1 !! "--from" = o2 !! "--from" →
  o1 !! "--to" = o2 !! "--to" →
  o1 !! "--cheapest" = o2 !! "--cheapest" →
  prepare_payload (VDict o1) = prepare_payload (VDict o2).
Proof.
  intros Hd Hr Hf Ht Hc. unfold prepare_payload, getitem_key.
  by rewrite Hd, Hr, Hf, Ht, Hc.
Qed.

Lemma prepare_payload_reads_sample :
  prepare_payload (VDict sample_options) = prepare_payload (VDict sample_other_options).
Proof.
  apply (prepare_payload_reads sample_options sample_other_options); reflexivity.
Defined.

(** ** Traces *)

Lemma bind_trace {A B} (m : Py A) (f : A → Py B) :
  (py_bind m f).2 = m.2 ++ match m.1 with Ok a => (f a).2 | Raise _ => [] end.
Proof.
  destruct m as [[a|e] t]; simpl; [by destruct (f a)|by rewrite app_nil_r].
Qed.

Lemma bind_result {A B} (m : Py A) (f : A → Py B) :
  (py_bind m f).1 = match m.1 with Ok a => (f a).1 | Raise e => Raise e end.
Proof. destruct m as [[a|e] t]; simpl; [by destruct (f a)|done]. Qed.

Lemma prints_only_bind {A B} (m : Py A) (f : A → Py B) :
  prints_only m → (∀ a, prints_only (f a)) → prints_only (py_bind m f).
Proof.
  unfold prints_only. intros Hm Hf. rewrite bind_trace, forallb_app, Hm.
  destruct m.1; [apply Hf|done].
Qed.

Lemma prints_only_lift {A} (r : result A) : prints_only (lift r).
Proof. reflexivity. Qed.

Lemma prints_only_print (args : list string) : prints_only (print args).
Proof. reflexivity. Qed.

Lemma prints_only_ret {A} (a : A) : prints_only (py_ret a).
Proof. reflexivity. Qed.

Lemma first_flight_field_silent (flight_details : value) (key : string) :
  silent (first_flight_field flight_details key).
Proof.
  unfold first_flight_field.
  repeat first [apply silent_lift | apply silent_bind; [|intros ?]].
Qed.

Lemma prints_only_silent {A} (m : Py A) : silent m → prints_only m.
Proof. unfold silent, prints_only. by intros ->. Qed.

(** ** The three stages, case by case *)

Lemma search_and_book_eq (rt : runtime) (search_options : value) :
  search_and_book rt search_options
  = (payload <~ prepare_payload search_options ;;
     flight_details <~ get_flights rt payload ;;
     booking <~ book_flight rt search_options flight_details passengers ;;
     report_booking rt flight_details booking).
Proof. reflexivity. Qed.

Lemma report_booking_prints (rt : runtime) (flight_details booking : value) :
  prints_only (report_booking rt flight_details booking).
Proof.
  unfold report_booking.
  apply prints_only_bind; [apply prints_only_lift|intros status].
  destruct (eq_str status "confirmed");
    repeat first
      [ apply prints_only_lift | apply prints_only_print | apply prints_only_ret
      | apply prints_only_silent, first_flight_field_silent
      | apply prints_only_bind; [|intros ?] ].
Qed.

Lemma get_flights_cases (rt : runtime) (payload : value) :
  (∃ e, requests_get rt search_url payload = Raise e
        ∧ get_flights rt payload = (Raise e, [EGet search_url payload]))
  ∨ (∃ r, requests_get rt search_url payload = Ok r ∧ status_code r ≠ 200
          ∧ get_flights rt payload
            = (Ok VNone,
               [EGet search_url payload;
                EPrint ("Error while connecting to API. Response code: "
                        +:+ pretty (status_code r))]))
  ∨ (∃ r, requests_get rt search_url payload = Ok r ∧ status_code r = 200
          ∧ get_flights rt payload
            = (json_loads rt (text r), [EGet search_url payload])).
Proof.
  destruct (requests_get rt search_url payload) as [r|e] eqn:Hr.
  - destruct (decide (status_code r = 200)) as [Hc|Hc]; [right; right|right; left];
      exists r; split_and!; try done; unfold get_flights, http_get, py_bind;
      rewrite Hr.
    + rewrite bool_decide_false by (by intros ?).
      unfold lift. by destruct (json_loads rt (text r)).
    + by rewrite bool_decide_true, format1_error.
  - left. exists e. split; [done|]. unfold get_flights, http_get. by rewrite Hr.
Qed.

Lemma bind_pair {A B} (a : A) (t : list event) (f : A → Py B) :
  py_bind (Ok a, t) f = ((f a).1, t ++ (f a).2).
Proof. unfold py_bind. by destruct (f a). Qed.

Lemma book_flight_cases (rt : runtime) (search_options flights pas : value) :
  (∃ e, book_flight rt search_options flights pas = (Raise e, []))
  ∨ ∃ (req : gmap string value) (data first currency bags token : value),
      getitem_key flights "data" = Ok data
      ∧ getitem_index data 0 = Ok first
      ∧ getitem_key flights "currency" = Ok currency
      ∧ getitem_key search_options "--bags" = Ok bags
      ∧ getitem_key first "booking_token" = Ok token
      ∧ dom req = booking_keys
      ∧ req !! "currency" = Some currency
      ∧ req !! "passengers" = Some pas
      ∧ req !! "bags" = Some bags
      ∧ req !! "booking_token" = Some token
      ∧ book_flight rt search_options flights pas
        = (res_bind (requests_post rt booking_url (VDict req))
                    (λ r, json_loads rt (text r)),
           [EPost booking_url (VDict req)]).
Proof.
  unfold book_flight.
  destruct (getitem_key flights "data") as [data|e] eqn:Hdata;
    [rewrite bind_ok|left; by exists e].
  destruct (getitem_index data 0) as [first|e] eqn:Hfirst;
    [rewrite bind_ok|left; by exists e].
  destruct (getitem_key flights "currency") as [currency|e] eqn:Hcur;
    [rewrite bind_ok|left; by exists e].
  destruct (getitem_key search_options "--bags") as [bags|e] eqn:Hbags;
    [rewrite bind_ok|left; by exists e].
  destruct (getitem_key first "booking_token") as [token|e] eqn:Htok;
    [rewrite bind_ok|left; by exists e].
  right.
  exists (dict_literal [("currency", currency); ("passengers", pas);
                         ("bags", bags); ("booking_token", token)]),
    data, first, currency, bags, token.
  split_and!; try done.
  unfold py_bind, http_post, lift, res_bind.
  by destruct (requests_post rt _ _).
Qed.

(** X8: whatever its arguments, [book_flight] either raises before it
    sends anything, or sends exactly one request, to the booking service,
    with exactly the four fields currency, passengers, bags and
    booking_token, each found where the code looks for it; it then
    returns the decoded answer or raises what the service or the decoder
    raised. *)
Theorem book_flight_events (rt : runtime) (search_options flights pas : value) :
  (∃ e, book_flight rt search_options flights pas = (Raise e, []))
  ∨ ∃ (req : gmap string value) (data first currency bags token : value),
      getitem_key flights "data" = Ok data
      ∧ getitem_index data 0 = Ok first
      ∧ getitem_key flights "currency" = Ok currency
      ∧ getitem_key search_options "--bags" = Ok bags
      ∧ getitem_key first "booking_token" = Ok token
      ∧ dom req = booking_keys
      ∧ req !! "currency" = Some currency
      ∧ req !! "passengers" = Some pas
      ∧ req !! "bags" = Some bags
      ∧ req !! "booking_token" = Some token
      ∧ book_flight rt search_options flights pas
        = (res_bind (requests_post rt booking_url (VDict req))
                    (λ r, json_loads rt (text r)),
           [EPost booking_url (VDict req)]).
Proof. apply book_flight_cases. Qed.

(** X9: [book_flight] reads the --bags option, the currency of the
    result and the first element of its data list, and nothing else:
    other options, other fields of the result and the flights after the
    first do not change what it does. *)
Theorem book_flight_reads (rt : runtime) (o1 o2 fd1 fd2 : gmap string value)
    (first pas : value) (others1 others2 : list value) :
  o1 !! "--bags" = o2 !! "--bags" →
  fd1 !! "currency" = fd2 !! "currency" →
  fd1 !! "data" = Some (VList (first :: others1)) →
  fd2 !! "data" = Some (VList (first :: others2)) →
  book_flight rt (VDict o1) (VDict fd1) pas
  = book_flight rt (VDict o2) (VDict fd2) pas.
Proof.
  intros Hbags Hcur Hd1 Hd2. unfold book_flight, getitem_key.
  by rewrite Hbags, Hcur, Hd1, Hd2.
Qed.

Lemma book_flight_reads_sample :
  book_flight (sample_world 200 "confirmed") (VDict sample_options)
    (VDict sample_result) passengers
  = book_flight (sample_world 200 "confirmed") (VDict sample_return_options)
      (VDict sample_longer_result) passengers.
Proof.
  apply (book_flight_reads (sample_world 200 "confirmed") sample_options
           sample_return_options sample_result sample_longer_result
           sample_first_flight passengers []
           [VDict (dict_literal [("price", VInt 1)])]); reflexivity.
Defined.

(** ** The whole run *)

Lemma run_cases (rt : runtime) (search_options : value) :
  let run := search_and_book rt search_options in
  (∃ e, prepare_payload search_options = (Raise e, []) ∧ run = (Raise e, []))
  ∨ ∃ payload,
      prepare_payload search_options = (Ok payload, [])
      ∧ ((∃ e t1, get_flights rt payload = (Raise e, t1) ∧ run = (Raise e, t1))
         ∨ ∃ flights t1,
             get_flights rt payload = (Ok flights, t1)
             ∧ ((∃ e t2,
                   book_flight rt search_options flights passengers = (Raise e, t2)
                   ∧ run = (Raise e, t1 ++ t2))
                ∨ ∃ booking t2,
                    book_flight rt search_options flights passengers
                    = (Ok booking, t2)
                    ∧ run = ((report_booking rt flights booking).1,
                             t1 ++ t2 ++ (report_booking rt flights booking).2))).
Proof.
  cbv zeta. rewrite search_and_book_eq.
  pose proof (prepare_payload_silent search_options) as Hs. unfold silent in Hs.
  destruct (prepare_payload search_options) as [[payload|e] t0].
  2:{ simpl in Hs. subst t0. left. by exists e. }
  simpl in Hs. subst t0. right. exists payload. split; [done|].
  rewrite bind_pair. cbn [app].
  destruct (get_flights rt payload) as [[flights|e] t1].
  2:{ left. by exists e, t1. }
  right. exists flights, t1. split; [done|]. rewrite bind_pair.
  destruct (book_flight rt search_options flights passengers) as [[booking|e] t2].
  2:{ left. by exists e, t2. }
  right. exists booking, t2. split; [done|]. by rewrite bind_pair.
Qed.

Lemma get_flights_trace (rt : runtime) (payload flights : value) (t : list event) :
  get_flights rt payload = (Ok flights, t) →
  (t = [EGet search_url payload]
   ∧ ∃ r, requests_get rt search_url payload = Ok r ∧ status_code r = 200
          ∧ json_loads rt (text r) = Ok flights)
  ∨ (flights = VNone ∧ ∃ line, t = [EGet search_url payload; EPrint line]).
Proof.
  intros H.
  destruct (get_flights_cases rt payload)
    as [(e & _ & Hg)|[(r & _ & _ & Hg)|(r & Hr & Hc & Hg)]];
    rewrite Hg in H.
  - done.
  - injection H as <- <-. right. eauto.
  - injection H as Hj <-. left. eauto.
Qed.

Lemma get_flights_raise_trace (rt : runtime) (payload : value) (e : exn)
    (t : list event) :
  get_flights rt payload = (Raise e, t) → t = [EGet search_url payload].
Proof.
  intros H.
  destruct (get_flights_cases rt payload)
    as [(e' & _ & Hg)|[(r & _ & _ & Hg)|(r & Hr & Hc & Hg)]];
    rewrite Hg in H; by injection H.
Qed.

Lemma book_flight_trace (rt : runtime) (search_options flights pas : value) :
  (∃ e, book_flight rt search_options flights pas = (Raise e, []))
  ∨ ∃ req : gmap string value,
      (book_flight rt search_options flights pas).2
      = [EPost booking_url (VDict req)]
      ∧ req !! "passengers" = Some pas.
Proof.
  destruct (book_flight_cases rt search_options flights pas)
    as [?|(req & ? & ? & ? & ? & ? & _ & _ & _ & _ & _ & _ & _ & Hp & _ & _ & Hb)];
    [by left|right].
  exists req. by rewrite Hb.
Qed.

Lemma report_cases (rt : runtime) (flights booking : value) :
  let report := report_booking rt flights booking in
  (∃ e, getitem_key booking "status" = Raise e ∧ report = (Raise e, []))
  ∨ (∃ status, getitem_key booking "status" = Ok status
               ∧ status ≠ VStr "confirmed"
               ∧ report = (Ok VNone, [EPrint "Could not book the flight"]))
  ∨ getitem_key booking "status" = Ok (VStr "confirmed").
Proof.
  cbv zeta. unfold report_booking.
  destruct (getitem_key booking "status") as [status|e]; [|left; by exists e].
  right. rewrite bind_ok. destruct (eq_str status "confirmed") eqn:Hc.
  - right. by apply eq_str_true in Hc as ->.
  - left. exists status. split_and!; [done| |done].
    intros Hs. apply eq_str_true in Hs. congruence.
Qed.

(** X10: every run, whatever the options and whatever the services
    answer, performs its events in this order: nothing at all; or one GET
    to the search service and then printed lines only; or that GET, one
    POST to the booking service, and then printed lines only. *)
Theorem run_events_in_order (rt : runtime) (search_options : value) :
  events_in_order (search_and_book rt search_options).2 = true.
Proof.
  destruct (run_cases rt search_options)
    as [(e & _ & ->)|(payload & _ & [(e & t1 & Hg & ->)|(flights & t1 & Hg & Hrun)])];
    [done| |].
  { by rewrite (get_flights_raise_trace _ _ _ _ Hg). }
  pose proof (report_booking_prints rt flights) as Hreport.
  destruct (get_flights_trace _ _ _ _ Hg) as [[-> _]|[-> [line ->]]].
  - destruct Hrun as [(e & t2 & Hb & ->)|(booking & t2 & Hb & ->)];
      destruct (book_flight_trace rt search_options flights passengers)
        as [[e' He']|(req & Hreq & _)]; rewrite Hb in *; simplify_eq/=; try done.
    apply Hreport.
  - assert (book_flight rt search_options VNone passengers = (Raise TypeError, []))
      as Hnone by reflexivity.
    destruct Hrun as [(e & t2 & Hb & ->)|(booking & t2 & Hb & ->)];
      rewrite Hnone in Hb; by simplify_eq/=.
Qed.

(** X7: when the search request itself fails, or the service answers 200
    with a body the decoder rejects, the exception leaves [search_and_book]
    uncaught: the run has sent its one GET, prints nothing and never
    reaches the booking service. *)
Theorem search_failure_ends_run (rt : runtime) (search_options payload : value)
    (e : exn) :
  prepare_payload search_options = (Ok payload, []) →
  (requests_get rt search_url payload = Raise e
   ∨ ∃ r, requests_get rt search_url payload = Ok r ∧ status_code r = 200
          ∧ json_loads rt (text r) = Raise e) →
  search_and_book rt search_options = (Raise e, [EGet search_url payload]).
Proof.
  intros Hp Hfail.
  assert (get_flights rt payload = (Raise e, [EGet search_url payload])) as Hg.
  { destruct (get_flights_cases rt payload)
      as [(e' & Hr & Hg)|[(r & Hr & Hc & Hg)|(r & Hr & Hc & Hg)]];
      destruct Hfail as [Hf|(r' & Hf & Hc' & Hj)]; rewrite Hf in Hr;
      simplify_eq; try done. by rewrite Hg, Hj. }
  rewrite search_and_book_eq. eapply bind_silent; [exact Hp|]. by rewrite Hg.
Qed.

Lemma search_failure_ends_run_sample :
  search_and_book offline_world (VDict sample_options)
  = (Raise (ExternalError "ConnectionError"),
     [EGet search_url (VDict sample_payload)]).
Proof.
  apply (search_failure_ends_run offline_world (VDict sample_options)
           (VDict sample_payload)); [by vm_compute|left; reflexivity].
Defined.

(** X11: a booking request is sent only after a search that succeeded:
    if a run contains a POST, then the payload was built, the search
    service answered 200, the body was decoded, and the POST is the one
    [book_flight] makes from that result, to the booking service, for the
    hard-coded passengers. *)
Theorem post_needs_search (rt : runtime) (search_options : value)
    (url : string) (req : value) :
  EPost url req ∈ (search_and_book rt search_options).2 →
  ∃ (payload flights : value) (r : response) (p : gmap string value),
    prepare_payload search_options = (Ok payload, [])
    ∧ requests_get rt search_url payload = Ok r
    ∧ status_code r = 200
    ∧ json_loads rt (text r) = Ok flights
    ∧ (book_flight rt search_options flights passengers).2 = [EPost url req]
    ∧ url = booking_url
    ∧ req = VDict p
    ∧ p !! "passengers" = Some passengers.
Proof.
  intros Hin.
  pose proof (λ fl, report_booking_prints rt fl) as Hreport.
  destruct (run_cases rt search_options)
    as [(e & _ & Hrun)|(payload & Hp & [(e & t1 & Hg & Hrun)|(flights & t1 & Hg & Hrun)])].
  { rewrite Hrun in Hin. by apply elem_of_nil in Hin. }
  { rewrite Hrun, (get_flights_raise_trace _ _ _ _ Hg) in Hin.
    apply list_elem_of_singleton in Hin. done. }
  assert (∀ t1 t2 t3, EPost url req ∈ t1 ++ t2 ++ t3 →
            forallb is_print t3 = true → EPost url req ∈ t1 ∨ EPost url req ∈ t2)
    as Hsplit.
  { intros ? ? t3 [?|[?|Hin3]%elem_of_app]%elem_of_app Hall; [by left|by right|].
    rewrite forallb_forall in Hall. apply list_elem_of_In, Hall in Hin3. done. }
  assert (EPost url req ∈ t1
          ∨ EPost url req ∈ (book_flight rt search_options flights passengers).2)
    as [Hin1|Hin2].
  { destruct Hrun as [(e & t2 & Hb & Hrun)|(booking & t2 & Hb & Hrun)];
      rewrite Hrun in Hin; rewrite Hb; simpl.
    - apply elem_of_app in Hin. tauto.
    - eapply Hsplit; [exact Hin|apply Hreport]. }
  { destruct (get_flights_trace _ _ _ _ Hg) as [[-> _]|[-> [line ->]]];
      repeat (apply elem_of_cons in Hin1 as [?|Hin1]; [done|]);
      by apply elem_of_nil in Hin1. }
  destruct (get_flights_trace _ _ _ _ Hg) as [[-> (r & Hr & Hc & Hj)]|[-> _]].
  2:{ by apply elem_of_nil in Hin2. }
  destruct (book_flight_trace rt search_options flights passengers)
    as [[e He]|(p & Hreq & Hpas)].
  { rewrite He in Hin2. by apply elem_of_nil in Hin2. }
  rewrite Hreq in Hin2. apply list_elem_of_singleton in Hin2.
  injection Hin2 as -> ->. exists payload, flights, r, p. by split_and!.
Qed.

Lemma post_needs_search_sample :
  ∃ (payload flights : value) (r : response) (p : gmap string value),
    prepare_payload (VDict sample_options) = (Ok payload, [])
    ∧ requests_get (sample_world 200 "pending") search_url payload = Ok r
    ∧ status_code r = 200
    ∧ json_loads (sample_world 200 "pending") (text r) = Ok flights
    ∧ (book_flight (sample_world 200 "pending") (VDict sample_options) flights
         passengers).2
      = [EPost booking_url (VDict (dict_literal [
           ("currency", VStr "EUR");
           ("passengers", passengers);
           ("bags", VStr "1");
           ("booking_token", VStr "token")]))]
    ∧ booking_url = booking_url
    ∧ VDict (dict_literal [
           ("currency", VStr "EUR");
           ("passengers", passengers);
           ("bags", VStr "1");
           ("booking_token", VStr "token")]) = VDict p
    ∧ p !! "passengers" = Some passengers.
Proof.
  apply (post_needs_search (sample_world 200 "pending") (VDict sample_options)).
  vm_compute. apply list_elem_of_In. right. left. reflexivity.
Defined.

(** X12: the line "Flight succesfully booked" is printed only for a
    booking the service confirmed: if a run prints it, then the search and
    the booking request both returned, and the status in the booking
    response is the string "confirmed". *)
Theorem success_line_means_confirmed (rt : runtime) (search_options : value) :
  EPrint "Flight succesfully booked" ∈ (search_and_book rt search_options).2 →
  ∃ (payload flights booking : value) (t1 t2 : list event),
    prepare_payload search_options = (Ok payload, [])
    ∧ get_flights rt payload = (Ok flights, t1)
    ∧ book_flight rt search_options flights passengers = (Ok booking, t2)
    ∧ getitem_key booking "status" = Ok (VStr "confirmed").
Proof.
  intros Hin.
  destruct (run_cases rt search_options)
    as [(e & _ & Hrun)|(payload & Hp & [(e & t1 & Hg & Hrun)|(flights & t1 & Hg & Hrun)])].
  { rewrite Hrun in Hin. by apply elem_of_nil in Hin. }
  { rewrite Hrun, (get_flights_raise_trace _ _ _ _ Hg) in Hin.
    apply list_elem_of_singleton in Hin. done. }
  assert (EPrint "Flight succesfully booked" ∉ t1) as Hn1.
  { intros Hin1.
    destruct (get_flights_cases rt payload)
      as [(e' & _ & Hg')|[(r & _ & _ & Hg')|(r & _ & _ & Hg')]];
      rewrite Hg' in Hg; simplify_eq;
      repeat (apply elem_of_cons in Hin1 as [?|Hin1]; [done|]);
      by apply elem_of_nil in Hin1. }
  assert (EPrint "Flight succesfully booked"
          ∉ (book_flight rt search_options flights passengers).2) as Hn2.
  { intros Hin2.
    destruct (book_flight_trace rt search_options flights passengers)
      as [[e He]|(p & Hreq & _)].
    - rewrite He in Hin2. by apply elem_of_nil in Hin2.
    - rewrite Hreq in Hin2. by apply list_elem_of_singleton in Hin2. }
  destruct Hrun as [(e & t2 & Hb & Hrun)|(booking & t2 & Hb & Hrun)];
    rewrite Hrun in Hin; rewrite Hb in Hn2; simpl in Hn2.
  { apply elem_of_app in Hin. tauto. }
  exists payload, flights, booking, t1, t2. split_and!; try done.
  apply elem_of_app in Hin as [?|[?|Hin]%elem_of_app]; [done..|].
  destruct (report_cases rt flights booking)
    as [(e & _ & Hr)|[(status & _ & _ & Hr)|?]]; [| |done]; rewrite Hr in Hin.
  - by apply elem_of_nil in Hin.
  - by apply list_elem_of_singleton in Hin.
Qed.

Lemma success_line_means_confirmed_sample :
  ∃ (payload flights booking : value) (t1 t2 : list event),
    prepare_payload (VDict sample_options) = (Ok payload, [])
    ∧ get_flights (sample_world 200 "confirmed") payload = (Ok flights, t1)
    ∧ book_flight (sample_world 200 "confirmed") (VDict sample_options) flights
        passengers = (Ok booking, t2)
    ∧ getitem_key booking "status" = Ok (VStr "confirmed").
Proof.
  apply (success_line_means_confirmed (sample_world 200 "confirmed")
           (VDict sample_options)).
  vm_compute. apply list_elem_of_In. do 3 right. left. reflexivity.
Defined.

(** X13: a response that is "confirmed" but has no pnr is found out only
    at the last line: the currency, the success line, the price and the
    two cities are already printed when the run ends with KeyError('pnr'). *)
Theorem confirmed_without_pnr (rt : runtime) (search_options payload : value)
    (fd booking : gmap string value)
    (currency price city_from city_to : value) (t1 t2 : list event) :
  prepare_payload search_options = (Ok payload, []) →
  get_flights rt payload = (Ok (VDict fd), t1) →
  book_flight rt search_options (VDict fd) passengers = (Ok (VDict booking), t2) →
  booking !! "status" = Some (VStr "confirmed") →
  flight_fields fd currency price city_from city_to →
  booking !! "pnr" = None →
  search_and_book rt search_options
  = (Raise (KeyError (VStr "pnr")),
     t1 ++ t2
     ++ [EPrint (py_str rt currency);
         EPrint "Flight succesfully booked";
         EPrint ("Price: " +:+ py_str rt price +:+ " " +:+ py_str rt currency);
         EPrint ("Departure: " +:+ py_str rt city_from);
         EPrint ("Arrival: " +:+ py_str rt city_to)]).
Proof.
  intros Hp Hg Hb Hstatus [Hcur (first & others & Hdata & Hprice & Hfrom & Hto)] Hpnr.
  unfold search_and_book.
  eapply bind_silent; [exact Hp|]. eapply bind_run; [exact Hg|].
  eapply bind_run; [exact Hb|].
  step_key Hstatus. change (eq_str (VStr "confirmed") "confirmed") with true.
  cbv iota. step_key Hcur.
  rewrite (first_flight_field_run rt fd first others _ _ Hdata Hprice), bind_silent_eq.
  rewrite (first_flight_field_run rt fd first others _ _ Hdata Hfrom), bind_silent_eq.
  rewrite (first_flight_field_run rt fd first others _ _ Hdata Hto), bind_silent_eq.
  do 5 apply bind_print.
  unfold getitem_key. by rewrite Hpnr.
Qed.

Lemma confirmed_without_pnr_sample :
  search_and_book no_pnr_world (VDict sample_options)
  = (Raise (KeyError (VStr "pnr")),
     [EGet search_url (VDict sample_payload)]
     ++ [EPost booking_url (VDict (dict_literal [
           ("currency", VStr "EUR");
           ("passengers", passengers);
           ("bags", VStr "1");
           ("booking_token", VStr "token")]))]
     ++ [EPrint "EUR";
         EPrint "Flight succesfully booked";
         EPrint "Price: 100 EUR";
         EPrint "Departure: Prague";
         EPrint "Arrival: London"]).
Proof.
  eapply (confirmed_without_pnr no_pnr_world (VDict sample_options)
            (VDict sample_payload) _ _ (VStr "EUR") (VInt 100) (VStr "Prague")
            (VStr "London")).
  - by vm_compute.
  - by vm_compute.
  - by vm_compute.
  - by vm_compute.
  - split; [by vm_compute|]. eexists _, _. split_and!; by vm_compute.
  - by vm_compute.
Defined.

(** X14: a booking response the status cannot be read from (not an
    object, or an object without "status") ends the run with the error of
    that subscript, after the booking request was sent and before any line
    of the report. *)
Theorem unreadable_booking_response (rt : runtime)
    (search_options payload flights booking : value) (e : exn)
    (t1 t2 : list event) :
  prepare_payload search_options = (Ok payload, []) →
  get_flights rt payload = (Ok flights, t1) →
  book_flight rt search_options flights passengers = (Ok booking, t2) →
  getitem_key booking "status" = Raise e →
  search_and_book rt search_options = (Raise e, t1 ++ t2).
Proof.
  intros Hp Hg Hb Hstatus. unfold search_and_book.
  eapply bind_silent; [exact Hp|]. eapply bind_run; [exact Hg|].
  eapply bind_run_silent; [exact Hb|]. by rewrite Hstatus.
Qed.

Lemma unreadable_booking_response_sample :
  search_and_book empty_booking_world (VDict sample_options)
  = (Raise (KeyError (VStr "status")),
     [EGet search_url (VDict sample_payload)]
     ++ [EPost booking_url (VDict (dict_literal [
           ("currency", VStr "EUR");
           ("passengers", passengers);
           ("bags", VStr "1");
           ("booking_token", VStr "token")]))]).
Proof.
  apply (unreadable_booking_response empty_booking_world (VDict sample_options)
           (VDict sample_payload) sample_flights (VDict ∅)); by vm_compute.
Defined.

Lemma print_ok_inv (args : list string) (a : value) (t : list event) :
  print args = (Ok a, t) → t = [EPrint (String.concat " " args)].
Proof. unfold print. by intros [= _ <-]. Qed.

Lemma report_booking_ok (rt : runtime) (flights booking v : value)
    (t : list event) :
  report_booking rt flights booking = (Ok v, t) →
  v = VNone
  ∧ ∃ (before : list event) (line : string),
      t = before ++ [EPrint line]
      ∧ (line = "Could not book the flight"
         ∨ ∃ pnr, getitem_key booking "pnr" = Ok pnr
                  ∧ line = "Your booking number is " +:+ py_str rt pnr).
Proof.
  unfold report_booking. intros H.
  apply bind_ok_inv in H as (status & ? & ? & [_ ->]%lift_ok_inv & H & ->).
  destruct (eq_str status "confirmed").
  - apply bind_ok_inv in H as (cur & ? & ? & [_ ->]%lift_ok_inv & H & ->).
    apply bind_ok_inv in H as (price & tp & ? & Hprice & H & ->).
    apply bind_ok_inv in H as (from & tf & ? & Hfrom & H & ->).
    apply bind_ok_inv in H as (to & tt & ? & Hto & H & ->).
    apply bind_ok_inv in H as (? & ? & ? & ->%print_ok_inv & H & ->).
    apply bind_ok_inv in H as (? & ? & ? & ->%print_ok_inv & H & ->).
    apply bind_ok_inv in H as (? & ? & ? & ->%print_ok_inv & H & ->).
    apply bind_ok_inv in H as (? & ? & ? & ->%print_ok_inv & H & ->).
    apply bind_ok_inv in H as (? & ? & ? & ->%print_ok_inv & H & ->).
    apply bind_ok_inv in H as (pnr & ? & ? & [Hpnr ->]%lift_ok_inv & H & ->).
    apply bind_ok_inv in H as (? & ? & ? & ->%print_ok_inv & H & ->).
    injection H as <- <-. split; [done|].
    eexists (tp ++ tf ++ tt ++ [EPrint _; EPrint _; EPrint _; EPrint _; EPrint _]), _.
    split.
    + rewrite <- !app_assoc. cbn [app]. reflexivity.
    + right. exists pnr. split; [done|]. apply format1_booking_number.
  - apply bind_ok_inv in H as (? & ? & ? & ->%print_ok_inv & H & ->).
    injection H as <- <-. split; [done|].
    exists [], "Could not book the flight". split; [done|by left].
Qed.

(** X15: a run that returns, returns None, and the last thing it did was
    to print one of the two closing lines: "Could not book the flight", or
    "Your booking number is" with the pnr of the booking response. *)
Theorem normal_end (rt : runtime) (search_options v : value) (t : list event) :
  search_and_book rt search_options = (Ok v, t) →
  v = VNone
  ∧ ∃ (before : list event) (line : string),
      t = before ++ [EPrint line]
      ∧ (line = "Could not book the flight"
         ∨ ∃ pnr, line = "Your booking number is " +:+ py_str rt pnr).
Proof.
  intros Hrun.
  destruct (run_cases rt search_options)
    as [(e & _ & H)|(payload & _ & [(e & t1 & _ & H)
       |(flights & t1 & _ & [(e & t2 & _ & H)|(booking & t2 & _ & H)])])];
    rewrite H in Hrun; try done.
  injection Hrun as Hv Ht.
  destruct (report_booking rt flights booking) as [r t3] eqn:Hreport.
  simpl in Hv, Ht. subst r t.
  apply report_booking_ok in Hreport as (-> & before & line & -> & Hline).
  split; [done|]. exists (t1 ++ t2 ++ before), line. split.
  - by rewrite <- !app_assoc.
  - destruct Hline as [?|(pnr & _ & ?)]; eauto.
Qed.

Lemma normal_end_sample :
  VNone = VNone
  ∧ ∃ (before : list event) (line : string),
      [EGet search_url (VDict sample_payload);
       EPost booking_url (VDict (dict_literal [
           ("currency", VStr "EUR");
           ("passengers", passengers);
           ("bags", VStr "1");
           ("booking_token", VStr "token")]));
       EPrint "Could not book the flight"] = before ++ [EPrint line]
      ∧ (line = "Could not book the flight"
         ∨ ∃ pnr, line = "Your booking number is "
                         +:+ py_str (sample_world 200 "pending") pnr).
Proof.
  apply (normal_end (sample_world 200 "pending") (VDict sample_options)).
  by vm_compute.
Defined.
